(** * launch-ide: editor resolution, argument synthesis and process launch

    A shallow embedding of [src/lib/get-args.ts] (argument synthesis and,
    after the separator, the editor resolver [guessEditor]) and of the
    entry point [launchIDE], followed by the properties of the
    specification that were checked against them.

    Conventions of the embedding.
    - A JavaScript string is a [string]: a sequence of 8-bit characters.
      [toLowerCase] and the [/i] flag act on the letters A-Z and leave
      every other character as it is; the names and extensions the source
      compares with are ASCII.
    - [String.prototype.replace] with a string pattern is embedded with
      its replacement patterns ([$$], [$&], [$`], [$']): the source passes
      file names and numbers as replacement text.
    - A number (line, column, exit code) is an integer of [Z].
    - The effects of the program (commands run, processes spawned or
      killed, callbacks, console output) are recorded as a list of
      [Event]s, oldest first; the module variable [_childProcess] is the
      state threaded through [launchIDE].
    - The two tables of [./editor-info] and the colouring functions of
      [chalk] are not part of the sources at hand: they are Section
      variables. *)

From Stdlib Require Import String Ascii List ZArith Bool Lia DecimalString.
Import ListNotations.
Local Open Scope list_scope.
Local Open Scope string_scope.

(* ================================================================== *)
(** ** JavaScript strings *)
(* ================================================================== *)

Module JsString.

(** The double quote, line feed and carriage return characters. *)
Definition DQUOTE : string := String "034"%char EmptyString.
Definition LF : string := String "010"%char EmptyString.
Definition CR : string := String "013"%char EmptyString.

(** [truthy s]: a string is falsy exactly when it is empty. *)
Definition truthy (s : string) : bool :=
  match s with EmptyString => false | String _ _ => true end.

Definition isUpper (c : ascii) : bool :=
  let n := nat_of_ascii c in (65 <=? n)%nat && (n <=? 90)%nat.

Definition toLowerChar (c : ascii) : ascii :=
  if isUpper c then ascii_of_nat (nat_of_ascii c + 32) else c.

(** [s.toLowerCase()] *)
Fixpoint toLowerCase (s : string) : string :=
  match s with
  | EmptyString => EmptyString
  | String c s' => String (toLowerChar c) (toLowerCase s')
  end.

(** [dropPrefix p s = Some r] when [s = p ++ r]. *)
Fixpoint dropPrefix (p s : string) : option string :=
  match p with
  | EmptyString => Some s
  | String a p' =>
      match s with
      | EmptyString => None
      | String b s' => if Ascii.eqb a b then dropPrefix p' s' else None
      end
  end.

(** [s.startsWith(p)] *)
Definition startsWith (s p : string) : bool :=
  match dropPrefix p s with Some _ => true | None => false end.

(** The first occurrence of [pat] in [s], as the text before it and the
    text after it. *)
Fixpoint findFirst (pat s : string) : option (string * string) :=
  match dropPrefix pat s with
  | Some rest => Some (EmptyString, rest)
  | None =>
      match s with
      | EmptyString => None
      | String c s' =>
          match findFirst pat s' with
          | Some (b, a) => Some (String c b, a)
          | None => None
          end
      end
  end.

(** [s.includes(pat)], also [s.indexOf(pat) !== -1]. *)
Definition includes (s pat : string) : bool :=
  match findFirst pat s with Some _ => true | None => false end.

(** [s.endsWith(suf)] *)
Fixpoint endsWith (s suf : string) : bool :=
  String.eqb s suf
  || match s with
     | EmptyString => false
     | String _ s' => endsWith s' suf
     end.

(** GetSubstitution of ECMAScript for a match without capture groups:
    [$$] is a dollar sign, [$&] the matched text, [$`] the text before
    the match, [$'] the text after it; a dollar sign followed by anything
    else stands for itself. *)
Fixpoint getSubstitution (matched before after template : string) : string :=
  match template with
  | EmptyString => EmptyString
  | String c t =>
      if Ascii.eqb c "$" then
        match t with
        | EmptyString => String c EmptyString
        | String d t' =>
            if Ascii.eqb d "$" then
              String "$" (getSubstitution matched before after t')
            else if Ascii.eqb d "&" then
              matched ++ getSubstitution matched before after t'
            else if Ascii.eqb d "`" then
              before ++ getSubstitution matched before after t'
            else if Ascii.eqb d "'" then
              after ++ getSubstitution matched before after t'
            else String c (getSubstitution matched before after t)
        end
      else String c (getSubstitution matched before after t)
  end.

(** [s.replace(pat, repl)] for a string pattern: the first occurrence
    only, the replacement text expanded by [getSubstitution]. *)
Definition replace (s pat repl : string) : string :=
  match findFirst pat s with
  | None => s
  | Some (b, a) => b ++ getSubstitution pat b a repl ++ a
  end.

(** What the specification calls literal replacement of the first
    occurrence: the replacement text is inserted as it is. *)
Definition replaceLiteral (s pat repl : string) : string :=
  match findFirst pat s with
  | None => s
  | Some (b, a) => b ++ repl ++ a
  end.

(** [s.split(sep)] for a non-empty separator. *)
Fixpoint splitFuel (fuel : nat) (sep s : string) : list string :=
  match fuel with
  | O => [s]
  | S f =>
      match findFirst sep s with
      | None => [s]
      | Some (b, a) => b :: splitFuel f sep a
      end
  end.

Definition split (s sep : string) : list string :=
  splitFuel (String.length s) sep s.

Definition isWhite (c : ascii) : bool :=
  let n := nat_of_ascii c in
  ((9 <=? n)%nat && (n <=? 13)%nat) || (n =? 32)%nat.

Fixpoint trimStart (s : string) : string :=
  match s with
  | EmptyString => EmptyString
  | String c s' => if isWhite c then trimStart s' else s
  end.

Fixpoint trimEnd (s : string) : string :=
  match s with
  | EmptyString => EmptyString
  | String c s' =>
      match trimEnd s' with
      | EmptyString => if isWhite c then EmptyString else String c EmptyString
      | t => String c t
      end
  end.

(** [s.trim()] *)
Definition trim (s : string) : string := trimEnd (trimStart s).

(** [tokens.join(sep)] *)
Fixpoint join (sep : string) (l : list string) : string :=
  match l with
  | [] => EmptyString
  | [x] => x
  | x :: rest => x ++ sep ++ join sep rest
  end.

(** [n.toString()] for an integer. *)
Definition numberToString (z : Z) : string :=
  NilZero.string_of_int (Z.to_int z).

(** Characters of a string as a list, and back. *)
Definition chars := list_ascii_of_string.
Definition ofChars := string_of_list_ascii.

End JsString.

Import JsString.

(* ================================================================== *)
(** ** The host: platform, [path], environment, file system *)
(* ================================================================== *)

(** [process.platform], as the type [Platform] of the source has it. *)
Inductive Platform : Type := darwin | linux | win32.

Definition Platform_eqb (a b : Platform) : bool :=
  match a, b with
  | darwin, darwin | linux, linux | win32, win32 => true
  | _, _ => false
  end.

Module NodePath.

Fixpoint dropWhile {A} (f : A -> bool) (l : list A) : list A :=
  match l with
  | [] => []
  | x :: l' => if f x then dropWhile f l' else l
  end.

Fixpoint takeWhile {A} (f : A -> bool) (l : list A) : list A :=
  match l with
  | [] => []
  | x :: l' => if f x then x :: takeWhile f l' else []
  end.

Definition isPosixSeparator (c : ascii) : bool := Ascii.eqb c "/".

Definition isWin32Separator (c : ascii) : bool :=
  Ascii.eqb c "/" || Ascii.eqb c "\".

(** The scan of [path.basename]: from the end of the path, skip the
    trailing separators, then take characters up to the next
    separator. *)
Definition lastComponent (isSep : ascii -> bool) (l : list ascii) : list ascii :=
  rev (takeWhile (fun c => negb (isSep c)) (dropWhile isSep (rev l))).

Definition isWindowsDeviceRoot (c : ascii) : bool :=
  let n := nat_of_ascii c in
  ((65 <=? n)%nat && (n <=? 90)%nat) || ((97 <=? n)%nat && (n <=? 122)%nat).

(** On win32 a drive prefix [X:] is left out of the scan. *)
Definition skipDrive (l : list ascii) : list ascii :=
  match l with
  | d :: c :: rest =>
      if isWindowsDeviceRoot d && Ascii.eqb c ":" then rest else l
  | _ => l
  end.

(** [path.basename(p)] of the [path] module of the platform. *)
Definition basename (platform : Platform) (p : string) : string :=
  match platform with
  | win32 => ofChars (lastComponent isWin32Separator (skipDrive (chars p)))
  | _ => ofChars (lastComponent isPosixSeparator (chars p))
  end.

End NodePath.

(** The file [.env.local] after [dotenv.parse], for the two keys the
    program reads. *)
Record DotEnv : Type := {
  local_CODE_EDITOR : option string;
  local_CODE_INSPECTOR_FORMAT_PATH : option string
}.

(** A path-format rule: a template, a list of templates, or (the third
    arm of [formatOpenPath]'s parameter type) a value that is neither. *)
Inductive Format : Type :=
| FStr (s : string)
| FList (l : list string)
| FOther (b : bool).

(** What the program observes of the process it runs in. [None] stands
    for [undefined] (an unset variable, a missing file), for a thrown
    exception of [execSync], and for an exception or the value [null] of
    [JSON.parse]. [path_relative_cwd f] is [path.relative("", f)]. *)
Record Host : Type := {
  platform : Platform;
  env_CODE_EDITOR : option string;
  env_CODE_INSPECTOR_FORMAT_PATH : option string;
  env_VISUAL : option string;
  env_EDITOR : option string;
  dotEnvLocal : option DotEnv;
  execSync : string -> option string;
  existsSync : string -> bool;
  os_release : string;
  path_relative_cwd : string -> string;
  JSON_parse : string -> option Format
}.

(* ================================================================== *)
(** ** src/lib/get-args.ts: argument synthesis *)
(* ================================================================== *)

(** [string | number], for line and column. *)
Inductive StrOrNum : Type :=
| Num (z : Z)
| Str (s : string).

Definition toString (v : StrOrNum) : string :=
  match v with
  | Num z => numberToString z
  | Str s => s
  end.

Definition FormatFile : string := "{file}".
Definition FormatLine : string := "{line}".
Definition FormatColumn : string := "{column}".

(** Truthiness of a format value, for [||]. *)
Definition Format_truthy (f : Format) : bool :=
  match f with
  | FStr s => truthy s
  | FList _ => true
  | FOther b => b
  end.

(** The chain of three [replace] calls applied to one template. *)
Definition replacePlaceholders (file : string) (line column : StrOrNum)
    (item : string) : string :=
  replace
    (replace (replace item FormatFile file) FormatLine (toString line))
    FormatColumn (toString column).

Definition formatOpenPath (file : string) (line column : StrOrNum)
    (format : Format) : list string :=
  let path := file ++ ":" ++ toString line ++ ":" ++ toString column in
  match format with
  | FStr f => [replacePlaceholders file line column f]
  | FList l => map (replacePlaceholders file line column) l
  | FOther _ => [path]
  end.

Record GetEditorFormatParams : Type := {
  editorBasename : string;
  openWindowParams : option string;
  workspace : option string
}.

(** The spread [...(x ? [x] : [])] for an optional string; an array
    literal with spreads is the [concat] of its parts. *)
Definition optionalArg (x : option string) : list string :=
  match x with
  | Some s => if truthy s then [s] else []
  | None => []
  end.

Definition oneOf (s : string) (cases : list string) : bool :=
  existsb (String.eqb s) cases.

Definition basicEditors : list string :=
  ["atom"; "atom beta"; "subl"; "sublime"; "sublime_text"; "wstorm";
   "charm"; "zed"].

Definition vscodeEditors : list string :=
  ["code"; "code-insiders"; "code - insiders"; "codium"; "cursor";
   "windsurf"; "vscodium"; "hbuilderx"; "hbuilder"].

Definition jetbrainsEditors : list string :=
  ["appcode"; "clion"; "clion64"; "idea"; "idea64"; "phpstorm";
   "phpstorm64"; "pycharm"; "pycharm64"; "rubymine"; "rubymine64";
   "webstorm"; "webstorm64"; "goland"; "goland64"; "rider"; "rider64"].

(** The [switch] of [getFormatByEditor]; the empty string when no case
    matches. *)
Definition getFormatByEditor (params : GetEditorFormatParams) : Format :=
  let e := editorBasename params in
  if oneOf e basicEditors then
    FStr (FormatFile ++ ":" ++ FormatLine ++ ":" ++ FormatColumn)
  else if oneOf e ["notepad++"] then
    FList ["-n" ++ FormatLine; "-c" ++ FormatColumn; FormatFile]
  else if oneOf e ["vim"; "mvim"] then
    FList ["+call cursor(" ++ FormatLine ++ ", " ++ FormatColumn ++ ")";
           FormatFile]
  else if oneOf e ["joe"; "gvim"] then
    FList ["+" ++ FormatLine; FormatFile]
  else if oneOf e ["emacs"; "emacsclient"] then
    FList ["+" ++ FormatLine ++ ":" ++ FormatColumn; FormatFile]
  else if oneOf e ["rmate"; "mate"; "mine"] then
    FList ["--line"; FormatLine; FormatFile]
  else if oneOf e vscodeEditors then
    FList (concat [optionalArg (workspace params);
                   ["-g"];
                   optionalArg (openWindowParams params);
                   [FormatFile ++ ":" ++ FormatLine ++ ":" ++ FormatColumn]])
  else if oneOf e jetbrainsEditors then
    FList (concat [optionalArg (workspace params);
                   ["--line"; FormatLine; FormatFile]])
  else FStr "".

(** [.replace(/\.(exe|cmd|bat|sh)$/i, "")] *)
Definition hasExtension (s ext : string) : bool :=
  endsWith (toLowerCase s) ext.

Definition dropLast (n : nat) (s : string) : string :=
  substring 0 (String.length s - n) s.

Definition stripExecutableExtension (s : string) : string :=
  if hasExtension s ".exe" || hasExtension s ".cmd" || hasExtension s ".bat"
  then dropLast 4 s
  else if hasExtension s ".sh" then dropLast 3 s
  else s.

Section GetArgs.

(** [COMMON_EDITOR_PROCESS_MAP] of [./editor-info]: for each platform,
    the editor names in the order of [Object.keys], each with its
    process paths. *)
Variable COMMON_EDITOR_PROCESS_MAP : Platform -> list (string * list string).

(** The [for] loop of [getEditorBasenameByProcessName]: the first editor
    one of whose process paths ends the process name. *)
Fixpoint matchProcessName (processName : string)
    (entries : list (string * list string)) : option string :=
  match entries with
  | [] => None
  | (name, editorPaths) :: rest =>
      if existsb (fun editorPath => endsWith processName editorPath) editorPaths
      then Some name
      else matchProcessName processName rest
  end.

Definition getEditorBasenameByProcessName (h : Host) (processName : string)
    : string :=
  let editorBasename :=
    stripExecutableExtension (NodePath.basename (platform h) processName) in
  let editorBasename :=
    match matchProcessName processName
            (COMMON_EDITOR_PROCESS_MAP (platform h)) with
    | Some name => name
    | None => editorBasename
    end in
  toLowerCase editorBasename.

Record GetArgumentsParams : Type := {
  processName : string;
  fileName : string;
  lineNumber : StrOrNum;
  colNumber : StrOrNum;
  arg_workspace : option string;
  arg_openWindowParams : string;
  pathFormat : option Format
}.

(** [a || b] where [a] may be [undefined]. *)
Definition orFormat (a : option Format) (b : Format) : Format :=
  match a with
  | Some f => if Format_truthy f then f else b
  | None => b
  end.

Definition getArguments (h : Host) (params : GetArgumentsParams)
    : list string :=
  let editorBasename := getEditorBasenameByProcessName h (processName params) in
  let _params := {| editorBasename := editorBasename;
                    openWindowParams := Some (arg_openWindowParams params);
                    workspace := arg_workspace params |} in
  let format :=
    let f := getFormatByEditor _params in
    if Format_truthy f then f else FStr "{file}" in
  formatOpenPath (fileName params) (lineNumber params) (colNumber params)
    (orFormat (pathFormat params) format).

End GetArgs.

(* ================================================================== *)
(** ** Effects *)
(* ================================================================== *)

(** A child process is known by the rank of its creation. *)
Definition ChildProcess : Type := nat.

(** What the program does to the outside, in the order it does it. *)
Inductive Event : Type :=
| ExecSyncCall (command : string)
| KillCall (child : ChildProcess) (signal : string)
| SpawnCall (command : string) (args : list string)
| ExecCall (command : string)
| OnErrorCall (file message : string)
| ConsoleLog (message : string).

(** A computation that either returns from the function or goes on. *)
Inductive Step (R A : Type) : Type :=
| Return (r : R)
| Continue (a : A).
Arguments Return {R A} r.
Arguments Continue {R A} a.

(** A value of [process.env] or of a parsed file, when it is truthy. *)
Definition whenTruthy (v : option string) : option string :=
  match v with
  | Some s => if truthy s then Some s else None
  | None => None
  end.

(** [table[key]] for a table object given by its own entries. *)
Fixpoint lookup {V : Type} (key : string) (entries : list (string * V))
    : option V :=
  match entries with
  | [] => None
  | (k, v) :: rest => if String.eqb k key then Some v else lookup key rest
  end.

(* ================================================================== *)
(** ** The editor resolver: guessEditor *)
(* ================================================================== *)

Definition ProcessExecutionMap (p : Platform) : string :=
  match p with
  | darwin => "ps ax -o comm="
  | linux => "ps -eo comm --sort=comm"
  | win32 =>
      "wmic process where " ++ DQUOTE ++ "executablepath is not null"
      ++ DQUOTE ++ " get executablepath"
  end.

Definition winExecBackup : string :=
  "powershell -NoProfile -Command " ++ DQUOTE
  ++ "Get-CimInstance -Query \" ++ DQUOTE
  ++ "select executablepath from win32_process where executablepath is not null\"
  ++ DQUOTE ++ " | % { $_.ExecutablePath }" ++ DQUOTE.

(** The members every plain object inherits from [Object.prototype]:
    the table objects have them as properties beside their own entries. *)
Definition objectPrototypeMembers : list string :=
  ["constructor"; "__defineGetter__"; "__defineSetter__"; "hasOwnProperty";
   "__lookupGetter__"; "__lookupSetter__"; "isPrototypeOf";
   "propertyIsEnumerable"; "toString"; "valueOf"; "__proto__";
   "toLocaleString"].

(** The value of [customEditors] when it is not [null]: the process
    paths of a table entry, or an inherited member, which is a function
    or an object: truthy, and without [includes] method. *)
Inductive CustomEditors : Type :=
| ProcessPaths (paths : list string)
| InheritedMember.

Section Guess.

Variable COMMON_EDITOR_PROCESS_MAP : Platform -> list (string * list string).

(** [COMMON_EDITORS_MAP] of [./editor-info]: for each platform, the
    process names in the order of [Object.keys], each with the command
    that launches the editor. *)
Variable COMMON_EDITORS_MAP : Platform -> list (string * string).

(** [COMMON_EDITOR_PROCESS_MAP[platform][editor] || null]: the entry of
    the table, else the member of that name the table object inherits,
    else [null]. *)
Definition getEditorByCustom (h : Host) (editor : string)
    : option CustomEditors :=
  match lookup editor (COMMON_EDITOR_PROCESS_MAP (platform h)) with
  | Some paths => Some (ProcessPaths paths)
  | None =>
      if oneOf editor objectPrototypeMembers
      then Some InheritedMember
      else None
  end.

(** Steps 1 and 2 of [guessEditor]: a configured name that is in the
    table gives the preferred process paths, any other is returned as
    it is. *)
Definition configuredEditor (h : Host) (value : option string)
    : Step string (option CustomEditors) :=
  match whenTruthy value with
  | Some name =>
      match getEditorByCustom h name with
      | Some editor => Continue (Some editor)
      | None => Return name
      end
  | None => Continue None
  end.

(** Is the editor [editorName] running? The pair is
    [(runningEditor, editor)] of the source, empty strings when it is
    not. *)
Definition detectEditor (h : Host) (output : string)
    (runningProcesses : list string) (editorName processName : string)
    : string * string :=
  match platform h with
  | win32 =>
      match find (fun _process =>
                    String.eqb (NodePath.basename win32 _process) editorName)
                 runningProcesses with
      | Some processPath =>
          if truthy processPath
          then (NodePath.basename win32 processPath, processPath)
          else ("", "")
      | None => ("", "")
      end
  | darwin =>
      match find (fun _process => endsWith _process editorName)
                 runningProcesses with
      | Some runningProcess =>
          if truthy runningProcess then
            let prefixPath := replace runningProcess editorName "" in
            if includes processName "/"
            then (editorName, prefixPath ++ processName)
            else (editorName, processName)
          else ("", "")
      | None => ("", "")
      end
  | linux =>
      if includes output editorName
      then (editorName, processName)
      else ("", "")
  end.

(** The loop over the known editors and the [if (first)] after it:
    an editor the user configured is returned as soon as it is seen
    running, otherwise the first one seen. *)
Fixpoint scanEditors (h : Host) (customEditors : option (list string))
    (output : string) (runningProcesses : list string)
    (entries : list (string * string)) (first : option string)
    : option string :=
  match entries with
  | [] => first
  | (editorName, processName) :: rest =>
      let '(runningEditor, editor) :=
        detectEditor h output runningProcesses editorName processName in
      if truthy runningEditor && truthy editor then
        if match customEditors with
           | Some l => existsb (String.eqb runningEditor) l
           | None => false
           end
        then Some editor
        else scanEditors h customEditors output runningProcesses rest
               (match first with Some _ => first | None => Some editor end)
      else scanEditors h customEditors output runningProcesses rest first
  end.

(** The scan of a listing. When [customEditors] is an inherited member,
    [customEditors.includes] is not a function: the test throws at the
    first editor seen running, before [first] is set, and the [catch] of
    [guessEditor] ignores it; when no editor is seen running the loop
    ends with nothing. Either way nothing is found. *)
Definition scanOutput (h : Host) (customEditors : option CustomEditors)
    (output : string) : option string :=
  let isWin32 := Platform_eqb (platform h) win32 in
  let runningProcesses :=
    map trim (split output (if isWin32 then CR ++ LF else LF)) in
  match customEditors with
  | Some InheritedMember => None
  | Some (ProcessPaths paths) =>
      scanEditors h (Some paths) output runningProcesses
        (COMMON_EDITORS_MAP (platform h)) None
  | None =>
      scanEditors h None output runningProcesses
        (COMMON_EDITORS_MAP (platform h)) None
  end.

(** The [try] block: list the running processes and scan them. A
    failure of the listing command is an empty listing, except on win32
    where the backup command runs, whose failure ends the block. *)
Definition detectRunningEditor (h : Host)
    (customEditors : option CustomEditors) : option string * list Event :=
  let isWin32 := Platform_eqb (platform h) win32 in
  let execution := ProcessExecutionMap (platform h) in
  let chcp := if isWin32 then [ExecSyncCall "chcp 65001"] else [] in
  match execSync h execution with
  | Some output =>
      (scanOutput h customEditors output,
       (chcp ++ [ExecSyncCall execution])%list)
  | None =>
      if isWin32 then
        match execSync h winExecBackup with
        | Some output =>
            (scanOutput h customEditors output,
             (chcp ++ [ExecSyncCall execution; ExecSyncCall winExecBackup])%list)
        | None =>
            (None,
             (chcp ++ [ExecSyncCall execution; ExecSyncCall winExecBackup])%list)
        end
      else
        (scanOutput h customEditors "",
         (chcp ++ [ExecSyncCall execution])%list)
  end.

(** [guessEditor] returns a one-element array in each of its branches;
    the embedding returns that element, [None] for [null], with the
    commands that were run. *)
Definition guessEditor (h : Host) (_editor : option string)
    : option string * list Event :=
  (* 1. process.env.CODE_EDITOR *)
  match configuredEditor h (env_CODE_EDITOR h) with
  | Return name => (Some name, [])
  | Continue customEditors =>
      (* 2. .env.local *)
      match
        match dotEnvLocal h, customEditors with
        | Some envConfig, None =>
            configuredEditor h (local_CODE_EDITOR envConfig)
        | _, _ => Continue customEditors
        end
      with
      | Return name => (Some name, [])
      | Continue customEditors =>
          (* 3. the editor the caller names *)
          let customEditors :=
            match whenTruthy _editor, customEditors with
            | Some name, None =>
                match getEditorByCustom h name with
                | Some editor => Some editor
                | None => customEditors
                end
            | _, _ => customEditors
            end in
          (* 4. the running processes *)
          let '(found, events) := detectRunningEditor h customEditors in
          match found with
          | Some editor => (Some editor, events)
          | None =>
              (* 5. VISUAL, then EDITOR *)
              match whenTruthy (env_VISUAL h) with
              | Some visual => (Some visual, events)
              | None => (whenTruthy (env_EDITOR h), events)
              end
          end
      end
  end.

End Guess.

(* ================================================================== *)
(** ** The entry point: launchIDE *)
(* ================================================================== *)

Definition isTerminalEditor (editor : string) : bool :=
  oneOf editor ["vim"; "emacs"; "nano"].

Definition getEnvFormatPath (h : Host) : option Format :=
  match whenTruthy (env_CODE_INSPECTOR_FORMAT_PATH h) with
  | Some text => JSON_parse h text
  | None =>
      match dotEnvLocal h with
      | Some envConfig =>
          match whenTruthy (local_CODE_INSPECTOR_FORMAT_PATH envConfig) with
          | Some text => JSON_parse h text
          | None => None
          end
      | None => None
      end
  end.

Definition getOpenWindowParams (ideOpenMethod : option string) : string :=
  match ideOpenMethod with
  | Some m =>
      if String.eqb m "reuse" then "-r"
      else if String.eqb m "new" then "-n"
      else ""
  | None => ""
  end.

(** [cmdArgs.replace(/([&|<>,;=^])/g, "^$1")] *)
Definition isCmdMetacharacter (c : ascii) : bool :=
  existsb (Ascii.eqb c) ["&"; "|"; "<"; ">"; ","; ";"; "="; "^"]%char.

Fixpoint escapeCmdArgs (cmdArgs : string) : string :=
  match cmdArgs with
  | EmptyString => EmptyString
  | String c rest =>
      if isCmdMetacharacter c
      then String "^" (String c (escapeCmdArgs rest))
      else String c (escapeCmdArgs rest)
  end.

Definition doubleQuoteIfNeeded (str : string) : string :=
  if includes str "^" then "^" ++ DQUOTE ++ str ++ "^" ++ DQUOTE
  else if includes str " " then DQUOTE ++ str ++ DQUOTE
  else str.

Definition launchCommand (editor : string) (args : list string) : string :=
  join " " (map doubleQuoteIfNeeded (editor :: map escapeCmdArgs args)).

Record LaunchIDEParams : Type := {
  file : string;
  line : option Z;
  column : option Z;
  editor : option string;
  method : option string;
  format : option Format;
  (** whether an [onError] function was supplied; its calls are
      [OnErrorCall] events *)
  onError : bool
}.

(** The module variable [_childProcess], and the number of processes
    created so far (the next one's handle). *)
Record LaunchState : Type := {
  _childProcess : option ChildProcess;
  created : nat
}.

(** The defaults of the destructuring: [line = 1], [column = 1]. *)
Definition lineOrDefault (params : LaunchIDEParams) : Z :=
  match line params with Some n => n | None => 1%Z end.

Definition columnOrDefault (params : LaunchIDEParams) : Z :=
  match column params with Some n => n | None => 1%Z end.

Section Launch.

Variable COMMON_EDITOR_PROCESS_MAP : Platform -> list (string * list string).
Variable COMMON_EDITORS_MAP : Platform -> list (string * string).

(** The colouring functions of [chalk]. *)
Variables chalk_red chalk_cyan chalk_green : string -> string.

Definition setupAdvice : string :=
  "add something like " ++ chalk_cyan "CODE_EDITOR=code" ++ " to the "
  ++ chalk_green ".env.local" ++ " file in your project folder,"
  ++ " or add " ++ chalk_green ("editor: " ++ DQUOTE ++ "code" ++ DQUOTE)
  ++ " to CodeInspectorPlugin config, "
  ++ "and then restart the development server. Learn more: "
  ++ chalk_green "https://goo.gl/MMTaZt".

Definition failedToRecognize : string :=
  "Failed to recognize IDE automatically".

Definition lastIsDot (s : string) : bool := endsWith s ".".

Definition printInstructions (h : Host) (fileName : string)
    (errorMessage : string) : list Event :=
  let couldNotOpen :=
    chalk_red ("Could not open " ++ NodePath.basename (platform h) fileName
               ++ " in the editor.") in
  let exited :=
    if truthy errorMessage then
      let errorMessage :=
        if lastIsDot errorMessage then errorMessage
        else errorMessage ++ "." in
      [ConsoleLog (chalk_red ("The editor process exited with an error: "
                              ++ errorMessage))]
    else [] in
  concat [[ConsoleLog couldNotOpen];
          exited;
          [ConsoleLog ("To set up the editor integration, " ++ setupAdvice)]].

(** [a || b] for two optional formats. *)
Definition orOptionalFormat (a b : option Format) : option Format :=
  match a with
  | Some f => if Format_truthy f then Some f else b
  | None => b
  end.

(** The report of a failure, to the callback when there is one. *)
Definition report (params : LaunchIDEParams) (file message : string)
    (otherwise : list Event) : list Event :=
  if onError params then [OnErrorCall file message] else otherwise.

(** The path handed to the editor: rewritten relative to the working
    directory under WSL. *)
Definition wslFile (h : Host) (file : string) : string :=
  if Platform_eqb (platform h) linux
     && startsWith file "/mnt/"
     && includes (toLowerCase (os_release h)) "microsoft"
  then path_relative_cwd h file
  else file.

(** The value of [args] after the [if (line)] statement; [args] is
    the empty rest of the array [guessEditor] returned. *)
Definition launchArgs (h : Host) (params : LaunchIDEParams)
    (editor file : string) (line column : Z) (pathFormat : option Format)
    : list string :=
  let args : list string := [] in
  if negb (line =? 0)%Z then
    List.app args
      (getArguments COMMON_EDITOR_PROCESS_MAP h
         {| processName := editor;
            fileName := file;
            lineNumber := Num line;
            colNumber := Num column;
            arg_workspace := None;
            arg_openWindowParams := getOpenWindowParams (method params);
            pathFormat := pathFormat |})
  else List.app args [file].

(** [if (_childProcess && isTerminalEditor(editor)) _childProcess.kill("SIGKILL")] *)
Definition killEvents (st : LaunchState) (editor : string) : list Event :=
  match _childProcess st with
  | Some child =>
      if isTerminalEditor editor then [KillCall child "SIGKILL"] else []
  | None => []
  end.

(** The creation of the editor process: through a shell command line on
    win32, directly elsewhere. *)
Definition startEvent (h : Host) (editor : string) (args : list string)
    : Event :=
  if Platform_eqb (platform h) win32
  then ExecCall (launchCommand editor args)
  else SpawnCall editor args.

(** The branch taken when no editor is recognized. *)
Definition unrecognized (params : LaunchIDEParams) : list Event :=
  report params (file params) failedToRecognize
    [ConsoleLog (failedToRecognize ++ ", " ++ setupAdvice)].

Definition launchIDE (h : Host) (params : LaunchIDEParams)
    (st : LaunchState) : LaunchState * list Event :=
  let line := lineOrDefault params in
  let column := columnOrDefault params in
  if negb (existsSync h (file params)) then (st, [])
  else
    let '(editor, guessed) :=
      guessEditor COMMON_EDITOR_PROCESS_MAP COMMON_EDITORS_MAP h
        (editor params) in
    let pathFormat := orOptionalFormat (getEnvFormatPath h) (format params) in
    match editor with
    | None => (st, List.app guessed (unrecognized params))
    | Some editor =>
        if negb (truthy editor) || String.eqb (toLowerCase editor) "none"
        then (st, List.app guessed (unrecognized params))
        else
          let file := wslFile h (file params) in
          let args := launchArgs h params editor file line column pathFormat in
          ({| _childProcess := Some (created st);
              created := S (created st) |},
           List.app guessed
             (List.app (killEvents st editor) [startEvent h editor args]))
    end.

(** The ["exit"] handler registered by a launch: the tracked process is
    forgotten, a non-zero code is reported. [file] is the path after the
    WSL rewrite. *)
Definition onExit (h : Host) (params : LaunchIDEParams) (file : string)
    (errorCode : option Z) (st : LaunchState) : LaunchState * list Event :=
  ({| _childProcess := None; created := created st |},
   match errorCode with
   | Some code =>
       if negb (code =? 0)%Z then
         let message := "(code " ++ numberToString code ++ ")" in
         report params file message (printInstructions h file message)
       else []
   | None => []
   end).

(** The ["error"] handler registered by a launch. *)
Definition onErrorEvent (h : Host) (params : LaunchIDEParams)
    (file message : string) (st : LaunchState) : LaunchState * list Event :=
  (st, report params file message (printInstructions h file message)).

End Launch.

(* ================================================================== *)
(** ** Notions used by the statements *)
(* ================================================================== *)

(** The editors for which the [switch] of [getFormatByEditor] has a
    case. *)
Definition hasFamilyRule (e : string) : bool :=
  oneOf e basicEditors
  || oneOf e ["notepad++"]
  || oneOf e ["vim"; "mvim"]
  || oneOf e ["joe"; "gvim"]
  || oneOf e ["emacs"; "emacsclient"]
  || oneOf e ["rmate"; "mate"; "mine"]
  || oneOf e vscodeEditors
  || oneOf e jetbrainsEditors.

(** Substitution as the specification words it: each placeholder's first
    occurrence replaced by the text itself, in the order file, line,
    column. *)
Definition replacePlaceholdersLiteral (file : string) (line column : StrOrNum)
    (item : string) : string :=
  replaceLiteral
    (replaceLiteral (replaceLiteral item FormatFile file)
       FormatLine (toString line))
    FormatColumn (toString column).

Definition formatOpenPathLiteral (file : string) (line column : StrOrNum)
    (format : Format) : list string :=
  match format with
  | FStr f => [replacePlaceholdersLiteral file line column f]
  | FList l => map (replacePlaceholdersLiteral file line column) l
  | FOther _ => [file ++ ":" ++ toString line ++ ":" ++ toString column]
  end.

(** A name that ends in one of the extensions the normalization strips. *)
Definition hasExecutableExtension (s : string) : bool :=
  hasExtension s ".exe" || hasExtension s ".cmd" || hasExtension s ".bat"
  || hasExtension s ".sh".

(** A name without directory part: no separator of the platform and, on
    win32, no drive prefix. *)
Definition isBareName (p : Platform) (s : string) : bool :=
  match p with
  | win32 =>
      forallb (fun c => negb (NodePath.isWin32Separator c)) (chars s)
      && match chars s with
         | d :: c :: _ => negb (NodePath.isWindowsDeviceRoot d && Ascii.eqb c ":")
         | _ => true
         end
  | _ => forallb (fun c => negb (NodePath.isPosixSeparator c)) (chars s)
  end.

(** An argument with a character that [escapeCmdArgs] escapes. *)
Definition hasCmdMetacharacter (s : string) : bool :=
  existsb isCmdMetacharacter (chars s).

(** The events that create a process, and those that signal one. *)
Definition isStart (e : Event) : bool :=
  match e with
  | SpawnCall _ _ | ExecCall _ => true
  | _ => false
  end.

Definition isKill (e : Event) : bool :=
  match e with
  | KillCall _ _ => true
  | _ => false
  end.

Definition isExecSync (e : Event) : bool :=
  match e with
  | ExecSyncCall _ => true
  | _ => false
  end.

Definition withLine (params : LaunchIDEParams) (l : option Z)
    : LaunchIDEParams :=
  {| file := file params; line := l; column := column params;
     editor := editor params; method := method params;
     format := format params; onError := onError params |}.

(* ================================================================== *)
(** ** Sample data for the concrete runs *)
(* ================================================================== *)

(** The runs below need tables. These are an excerpt in the shape of
    [./editor-info], after the examples given in the comments of
    [getEditorBasenameByProcessName]. *)
Definition sampleProcessMap (p : Platform) : list (string * list string) :=
  match p with
  | darwin => [("code", ["/Visual Studio Code.app/Contents/MacOS/Electron"])]
  | linux => [("code", ["code"])]
  | win32 => [("code", ["Code.exe"])]
  end.

Definition sampleEditorsMap (p : Platform) : list (string * string) :=
  match p with
  | darwin => [("/Visual Studio Code.app/Contents/MacOS/Electron", "code")]
  | linux => [("code", "code")]
  | win32 => [("Code.exe", "code")]
  end.

(** A host where every file exists, nothing is configured but
    [CODE_EDITOR], and the process listing prints [listing]. *)
Definition sampleHost (p : Platform) (codeEditor : option string)
    (listing : option string) : Host :=
  {| platform := p;
     env_CODE_EDITOR := codeEditor;
     env_CODE_INSPECTOR_FORMAT_PATH := None;
     env_VISUAL := None;
     env_EDITOR := None;
     dotEnvLocal := None;
     execSync := fun _ => listing;
     existsSync := fun _ => true;
     os_release := "6.8.0-generic";
     path_relative_cwd := fun f => f;
     JSON_parse := fun _ => None |}.

(** The same host with no file on disk. *)
Definition emptyDiskHost (p : Platform) : Host :=
  {| platform := p;
     env_CODE_EDITOR := Some "code";
     env_CODE_INSPECTOR_FORMAT_PATH := None;
     env_VISUAL := None;
     env_EDITOR := None;
     dotEnvLocal := None;
     execSync := fun _ => None;
     existsSync := fun _ => false;
     os_release := "6.8.0-generic";
     path_relative_cwd := fun f => f;
     JSON_parse := fun _ => None |}.

(** A host whose [.env.local] names the editor. *)
Definition dotEnvHost (p : Platform) (codeEditor : string) : Host :=
  {| platform := p;
     env_CODE_EDITOR := None;
     env_CODE_INSPECTOR_FORMAT_PATH := None;
     env_VISUAL := None;
     env_EDITOR := None;
     dotEnvLocal := Some {| local_CODE_EDITOR := Some codeEditor;
                            local_CODE_INSPECTOR_FORMAT_PATH := None |};
     execSync := fun _ => None;
     existsSync := fun _ => true;
     os_release := "6.8.0-generic";
     path_relative_cwd := fun f => f;
     JSON_parse := fun _ => None |}.

Definition plain (s : string) : string := s.

Definition sampleRequest (f : string) (l : option Z) (callback : bool)
    : LaunchIDEParams :=
  {| file := f; line := l; column := None; editor := None; method := None;
     format := None; onError := callback |}.

Definition sampleArguments (name f : string) (fmt : option Format)
    : GetArgumentsParams :=
  {| processName := name; fileName := f; lineNumber := Num 10;
     colNumber := Num 5; arg_workspace := None; arg_openWindowParams := "";
     pathFormat := fmt |}.

Definition initialState : LaunchState :=
  {| _childProcess := None; created := 0 |}.

(** [launchIDE] over the sample tables, uncoloured. *)
Definition sampleLaunch (h : Host) (params : LaunchIDEParams)
    (st : LaunchState) : LaunchState * list Event :=
  launchIDE sampleProcessMap sampleEditorsMap plain plain h params st.

(* ================================================================== *)
(** ** Notions used by the further properties *)
(* ================================================================== *)

(** The position argument [file:line:column] for a numeric line and
    column. *)
Definition position (file : string) (l c : Z) : string :=
  file ++ ":" ++ numberToString l ++ ":" ++ numberToString c.

(** A template fragment that holds none of the three placeholders. *)
Definition placeholderFree (t : string) : bool :=
  negb (includes t FormatFile) && negb (includes t FormatLine)
  && negb (includes t FormatColumn).

(** A file name that the substitution inserts as it is: no dollar sign
    for [replace] to expand, no placeholder for the later [replace]
    calls to find. *)
Definition plainFileName (f : string) : bool :=
  negb (includes f "$") && negb (includes f FormatLine)
  && negb (includes f FormatColumn).

(** The window flag of a request: [-r] to reuse a window, [-n] for a new
    one, none otherwise. *)
Definition windowFlag (ideOpenMethod : option string) : list string :=
  match ideOpenMethod with
  | Some m =>
      if String.eqb m "reuse" then ["-r"]
      else if String.eqb m "new" then ["-n"]
      else []
  | None => []
  end.

Definition isConsoleLog (e : Event) : bool :=
  match e with
  | ConsoleLog _ => true
  | _ => false
  end.

(** The host with another [.env.local]. *)
Definition setDotEnvLocal (h : Host) (d : option DotEnv) : Host :=
  {| platform := platform h;
     env_CODE_EDITOR := env_CODE_EDITOR h;
     env_CODE_INSPECTOR_FORMAT_PATH := env_CODE_INSPECTOR_FORMAT_PATH h;
     env_VISUAL := env_VISUAL h;
     env_EDITOR := env_EDITOR h;
     dotEnvLocal := d;
     execSync := execSync h;
     existsSync := existsSync h;
     os_release := os_release h;
     path_relative_cwd := path_relative_cwd h;
     JSON_parse := JSON_parse h |}.

(** The editors of the table seen running, in table order, each as the
    pair [(runningEditor, editor)]. *)
Definition runningEditors (h : Host) (output : string)
    (runningProcesses : list string) (entries : list (string * string))
    : list (string * string) :=
  filter (fun found => truthy (fst found) && truthy (snd found))
    (map (fun entry =>
            detectEditor h output runningProcesses (fst entry) (snd entry))
       entries).

(** A running editor that the configuration names. *)
Definition isPreferred (customEditors : option (list string))
    (found : string * string) : bool :=
  match customEditors with
  | Some l => existsb (String.eqb (fst found)) l
  | None => false
  end.

(** [VISUAL], then [EDITOR]. *)
Definition environmentFallback (h : Host) : option string :=
  match whenTruthy (env_VISUAL h) with
  | Some visual => Some visual
  | None => whenTruthy (env_EDITOR h)
  end.

(** A configured editor name that does not end the resolution at once:
    unset, empty, or in the platform table. *)
Definition knownOrUnset (table : Platform -> list (string * list string))
    (h : Host) (value : option string) : bool :=
  match whenTruthy value with
  | Some name =>
      match getEditorByCustom table h name with
      | Some _ => true
      | None => false
      end
  | None => true
  end.

(** The configured editor name that ends the resolution at once: the
    value of [CODE_EDITOR] when the table object has no property of that
    name, or, with [CODE_EDITOR] unset or empty, the like value of
    [.env.local]. *)
Definition configuredLiteral (table : Platform -> list (string * list string))
    (h : Host) : option string :=
  match whenTruthy (env_CODE_EDITOR h) with
  | Some name =>
      match getEditorByCustom table h name with
      | Some _ => None
      | None => Some name
      end
  | None =>
      match dotEnvLocal h with
      | Some envConfig =>
          match whenTruthy (local_CODE_EDITOR envConfig) with
          | Some name =>
              match getEditorByCustom table h name with
              | Some _ => None
              | None => Some name
              end
          | None => None
          end
      | None => None
      end
  end.

(** The commands of a process listing: off win32 the listing command of
    the platform; on win32 the change of code page, the listing, and the
    backup listing when the first one fails. *)
Definition listingCommands (h : Host) : list Event :=
  match platform h with
  | win32 =>
      ExecSyncCall "chcp 65001"
      :: ExecSyncCall (ProcessExecutionMap win32)
      :: match execSync h (ProcessExecutionMap win32) with
         | Some _ => []
         | None => [ExecSyncCall winExecBackup]
         end
  | p => [ExecSyncCall (ProcessExecutionMap p)]
  end.

(** A host under WSL, with a Windows editor configured. *)
Definition wslHost : Host :=
  {| platform := linux;
     env_CODE_EDITOR := Some "code.exe";
     env_CODE_INSPECTOR_FORMAT_PATH := None;
     env_VISUAL := None;
     env_EDITOR := None;
     dotEnvLocal := None;
     execSync := fun _ => None;
     existsSync := fun _ => true;
     os_release := "4.4.0-43-Microsoft";
     path_relative_cwd := fun _ => "../../mnt/c/src/a.js";
     JSON_parse := fun _ => None |}.

Definition withMethod (params : LaunchIDEParams) (m : option string)
    : LaunchIDEParams :=
  {| file := file params; line := line params; column := column params;
     editor := editor params; method := m;
     format := format params; onError := onError params |}.

Definition withFormat (params : LaunchIDEParams) (f : option Format)
    : LaunchIDEParams :=
  {| file := file params; line := line params; column := column params;
     editor := editor params; method := method params;
     format := f; onError := onError params |}.

Definition withOpenWindowParams (params : GetArgumentsParams) (o : string)
    : GetArgumentsParams :=
  {| processName := processName params; fileName := fileName params;
     lineNumber := lineNumber params; colNumber := colNumber params;
     arg_workspace := arg_workspace params; arg_openWindowParams := o;
     pathFormat := pathFormat params |}.

(** The separators of the platform's [path] module. *)
Definition isSeparator (p : Platform) (c : ascii) : bool :=
  match p with
  | win32 => NodePath.isWin32Separator c
  | _ => NodePath.isPosixSeparator c
  end.

(** The four extensions of an executable, in lower case. *)
Definition executableExtensions : list string :=
  [".exe"; ".cmd"; ".bat"; ".sh"].

(** A host whose environment gives the format [["{file}", "--goto",
    "{line}"]], as JSON text. *)
Definition sampleFormatText : string :=
  "[" ++ DQUOTE ++ "{file}" ++ DQUOTE ++ "," ++ DQUOTE ++ "--goto" ++ DQUOTE
  ++ "," ++ DQUOTE ++ "{line}" ++ DQUOTE ++ "]".

Definition formatHost (p : Platform) (codeEditor : string) : Host :=
  {| platform := p;
     env_CODE_EDITOR := Some codeEditor;
     env_CODE_INSPECTOR_FORMAT_PATH := Some sampleFormatText;
     env_VISUAL := None;
     env_EDITOR := None;
     dotEnvLocal := None;
     execSync := fun _ => None;
     existsSync := fun _ => true;
     os_release := "6.8.0-generic";
     path_relative_cwd := fun f => f;
     JSON_parse := fun text =>
       if String.eqb text sampleFormatText
       then Some (FList ["{file}"; "--goto"; "{line}"])
       else None |}.

Definition sampleArgumentsIn (name f : string) (w : option string)
    (flag : string) : GetArgumentsParams :=
  {| processName := name; fileName := f; lineNumber := Num 10;
     colNumber := Num 5; arg_workspace := w; arg_openWindowParams := flag;
     pathFormat := None |}.

(* ================================================================== *)
(** ** Properties of the string operations *)
(* ================================================================== *)

Section StringFacts.

Lemma toLowerChar_idempotent (c : ascii) :
  toLowerChar (toLowerChar c) = toLowerChar c.
Proof.
  destruct c as [[] [] [] [] [] [] [] []]; reflexivity.
Qed.

Lemma toLowerCase_idempotent (s : string) :
  toLowerCase (toLowerCase s) = toLowerCase s.
Proof.
  induction s as [| c s IH]; simpl.
  - reflexivity.
  - now rewrite toLowerChar_idempotent, IH.
Qed.

Lemma append_empty_r (s : string) : s ++ "" = s.
Proof.
  induction s as [| c s IH]; simpl; [reflexivity | now rewrite IH].
Qed.

Lemma dropPrefix_sound (p s r : string) :
  dropPrefix p s = Some r -> s = p ++ r.
Proof.
  revert s. induction p as [| a p IH]; intros s H; simpl in H.
  - now injection H as <-.
  - destruct s as [| b s]; [discriminate |].
    destruct (Ascii.eqb a b) eqn:E; [| discriminate].
    apply Ascii.eqb_eq in E. subst b. simpl. f_equal. now apply IH.
Qed.

Lemma dropPrefix_complete (p r : string) : dropPrefix p (p ++ r) = Some r.
Proof.
  induction p as [| a p IH]; simpl; [reflexivity |].
  now rewrite Ascii.eqb_refl.
Qed.

(** [findFirst] splits the string around an occurrence of the
    pattern... *)
Lemma findFirst_sound (pat s b a : string) :
  findFirst pat s = Some (b, a) -> s = b ++ pat ++ a.
Proof.
  revert b. induction s as [| c s IH]; intros b H; simpl in H.
  - destruct (dropPrefix pat "") as [r |] eqn:E; [| discriminate].
    injection H as <- <-. exact (dropPrefix_sound _ _ _ E).
  - destruct (dropPrefix pat (String c s)) as [r |] eqn:E.
    + injection H as <- <-. exact (dropPrefix_sound _ _ _ E).
    + destruct (findFirst pat s) as [[b0 a0] |]; [| discriminate].
      injection H as <- <-. simpl. f_equal. now apply IH.
Qed.

(** ... and that occurrence is the first one. *)
Lemma findFirst_first (pat b' a' : string) :
  exists b a,
    findFirst pat (b' ++ pat ++ a') = Some (b, a)
    /\ String.length b <= String.length b'.
Proof.
  induction b' as [| c b' IH].
  - exists "", a'. simpl append.
    destruct (pat ++ a') eqn:E; simpl; rewrite <- E, dropPrefix_complete;
      split; [reflexivity | lia | reflexivity | lia].
  - destruct IH as (b & a & Hfind & Hlen). simpl append. simpl findFirst.
    destruct (dropPrefix pat (String c (b' ++ pat ++ a'))) as [r |].
    + exists "", r. split; [reflexivity | simpl; lia].
    + rewrite Hfind. exists (String c b), a.
      split; [reflexivity | simpl; lia].
Qed.

Lemma includes_occurrence (s pat : string) :
  includes s pat = true <-> exists b a, s = b ++ pat ++ a.
Proof.
  unfold includes. split.
  - destruct (findFirst pat s) as [[b a] |] eqn:E; [| discriminate].
    intros _. exists b, a. now apply findFirst_sound.
  - intros (b & a & ->).
    destruct (findFirst_first pat b a) as (b0 & a0 & H & _). now rewrite H.
Qed.

(** The search for a one-character pattern looks at each character. *)
Lemma includes_char_cons (d c : ascii) (s : string) :
  includes (String c s) (String d "")
  = Ascii.eqb d c || includes s (String d "").
Proof.
  unfold includes; simpl.
  destruct (Ascii.eqb d c); simpl.
  - reflexivity.
  - destruct (findFirst (String d "") s) as [[b a] |]; reflexivity.
Qed.

Lemma includes_char (d : ascii) (s : string) :
  includes s (String d "") = existsb (Ascii.eqb d) (chars s).
Proof.
  induction s as [| c s IH].
  - reflexivity.
  - rewrite includes_char_cons, IH. reflexivity.
Qed.

(** A replacement text without dollar sign stands for itself. *)
Lemma getSubstitution_plain (matched before after template : string) :
  includes template "$" = false ->
  getSubstitution matched before after template = template.
Proof.
  induction template as [| c t IH]; intros H.
  - reflexivity.
  - rewrite includes_char_cons in H.
    apply orb_false_iff in H as [Hc Ht].
    rewrite Ascii.eqb_sym in Hc.
    simpl. rewrite Hc, (IH Ht). reflexivity.
Qed.

Lemma replace_plain (s pat repl : string) :
  includes repl "$" = false ->
  replace s pat repl = replaceLiteral s pat repl.
Proof.
  intros H. unfold replace, replaceLiteral.
  destruct (findFirst pat s) as [[b a] |]; [| reflexivity].
  now rewrite getSubstitution_plain.
Qed.

Lemma replace_absent (s pat repl : string) :
  includes s pat = false -> replace s pat repl = s.
Proof.
  unfold includes, replace.
  destruct (findFirst pat s) as [[b a] |]; [discriminate | reflexivity].
Qed.

(** A number prints without dollar sign. *)
Lemma string_of_uint_plain (d : Decimal.uint) :
  includes (NilEmpty.string_of_uint d) "$" = false.
Proof.
  induction d; simpl; try reflexivity;
    rewrite includes_char_cons; simpl; assumption.
Qed.

Lemma numberToString_plain (z : Z) :
  includes (numberToString z) "$" = false.
Proof.
  unfold numberToString, NilZero.string_of_int.
  destruct (Z.to_int z) as [d | d]; unfold NilZero.string_of_uint.
  - destruct d; try apply (string_of_uint_plain (_ d)); reflexivity.
  - rewrite includes_char_cons; simpl.
    destruct d; try apply (string_of_uint_plain (_ d)); reflexivity.
Qed.

End StringFacts.

(* ================================================================== *)
(** ** Argument synthesis *)
(* ================================================================== *)

Section FormatFacts.

Variables (file : string) (line column : StrOrNum).

Lemma formatOpenPath_string (template : string) :
  formatOpenPath file line column (FStr template)
  = [replacePlaceholders file line column template].
Proof. reflexivity. Qed.

Lemma formatOpenPath_list_length (templates : list string) :
  List.length (formatOpenPath file line column (FList templates))
  = List.length templates.
Proof. simpl. apply length_map. Qed.

Lemma formatOpenPath_list_nth (templates : list string) (i : nat) :
  nth_error (formatOpenPath file line column (FList templates)) i
  = option_map (replacePlaceholders file line column) (nth_error templates i).
Proof. simpl. apply nth_error_map. Qed.

Lemma toString_number_plain (z : Z) : includes (toString (Num z)) "$" = false.
Proof. apply numberToString_plain. Qed.

(** Where no replacement text holds a dollar sign, the three [replace]
    calls are the literal substitution of the specification. *)
Lemma replacePlaceholders_literal (template : string) :
  includes file "$" = false ->
  includes (toString line) "$" = false ->
  includes (toString column) "$" = false ->
  replacePlaceholders file line column template
  = replacePlaceholdersLiteral file line column template.
Proof.
  intros Hf Hl Hc.
  unfold replacePlaceholders, replacePlaceholdersLiteral.
  now rewrite !replace_plain.
Qed.

Lemma formatOpenPath_literal (format : Format) :
  includes file "$" = false ->
  includes (toString line) "$" = false ->
  includes (toString column) "$" = false ->
  formatOpenPath file line column format
  = formatOpenPathLiteral file line column format.
Proof.
  intros Hf Hl Hc. destruct format as [f | l | b]; simpl.
  - now rewrite replacePlaceholders_literal.
  - apply map_ext. intros item.
    now apply replacePlaceholders_literal.
  - reflexivity.
Qed.

(** The template [{file}] is replaced by the file name when that name
    has no dollar sign and no placeholder of its own. *)
Lemma replacePlaceholders_file_only :
  includes file "$" = false ->
  includes file FormatLine = false ->
  includes file FormatColumn = false ->
  replacePlaceholders file line column "{file}" = file.
Proof.
  intros Hd Hl Hc. unfold replacePlaceholders.
  assert (E : replace "{file}" FormatFile file = file).
  { unfold replace. simpl findFirst. cbv iota beta.
    rewrite (getSubstitution_plain _ _ _ _ Hd). simpl.
    apply append_empty_r. }
  rewrite E, (replace_absent _ _ _ Hl), (replace_absent _ _ _ Hc).
  reflexivity.
Qed.

End FormatFacts.

Lemma getFormatByEditor_no_rule (p : GetEditorFormatParams) :
  hasFamilyRule (editorBasename p) = false ->
  getFormatByEditor p = FStr "".
Proof.
  unfold hasFamilyRule, getFormatByEditor. intros H.
  do 7 (apply orb_false_iff in H; destruct H as [H ?]).
  cbv zeta.
  repeat match goal with
         | E : oneOf _ _ = false |- _ => rewrite E; clear E
         end.
  reflexivity.
Qed.

Lemma getFormatByEditor_rule (p : GetEditorFormatParams) :
  hasFamilyRule (editorBasename p) = true ->
  Format_truthy (getFormatByEditor p) = true.
Proof.
  unfold hasFamilyRule, getFormatByEditor. cbv zeta. intros H.
  repeat match goal with
         | |- context [if oneOf ?e ?l then _ else _] =>
             destruct (oneOf e l); [reflexivity |]
         end.
  discriminate H.
Qed.

(** C1, as amended. An editor without a case in [getFormatByEditor] and a
    request without format override get the format [{file}], not
    [{file}:{line}:{column}]: [getArguments] returns what
    [formatOpenPath] makes of the template [{file}], which is the
    one-element list of the file name when that name holds no dollar sign
    and no placeholder. *)
Theorem getArguments_unknown_editor
    (table : Platform -> list (string * list string)) (h : Host)
    (params : GetArgumentsParams) :
  hasFamilyRule
    (getEditorBasenameByProcessName table h (processName params)) = false ->
  pathFormat params = None ->
  getArguments table h params
  = formatOpenPath (fileName params) (lineNumber params) (colNumber params)
      (FStr "{file}")
  /\ (includes (fileName params) "$" = false ->
      includes (fileName params) FormatLine = false ->
      includes (fileName params) FormatColumn = false ->
      getArguments table h params = [fileName params]).
Proof.
  intros Hrule Hnone.
  assert (E : getArguments table h params
              = formatOpenPath (fileName params) (lineNumber params)
                  (colNumber params) (FStr "{file}")).
  { unfold getArguments.
    rewrite getFormatByEditor_no_rule by exact Hrule.
    rewrite Hnone. reflexivity. }
  split; [exact E |].
  intros Hd Hl Hc. rewrite E, formatOpenPath_string.
  now rewrite replacePlaceholders_file_only.
Qed.

Lemma getArguments_unknown_editor_witness :
  getArguments sampleProcessMap (sampleHost linux None None)
    (sampleArguments "nano" "/a/b.js" None)
  = ["/a/b.js"].
Proof.
  apply (getArguments_unknown_editor sampleProcessMap
           (sampleHost linux None None)
           (sampleArguments "nano" "/a/b.js" None));
    reflexivity.
Defined.

(** C1, as stated, fails: for the editor [nano], which has no case, the
    result is the file name alone, line and column are dropped. *)
Lemma getArguments_unknown_editor_drops_position :
  hasFamilyRule
    (getEditorBasenameByProcessName sampleProcessMap
       (sampleHost linux None None) "nano") = false
  /\ getArguments sampleProcessMap (sampleHost linux None None)
       (sampleArguments "nano" "/a/b.js" None) = ["/a/b.js"]
  /\ getArguments sampleProcessMap (sampleHost linux None None)
       (sampleArguments "nano" "/a/b.js" None) <> ["/a/b.js:10:5"].
Proof.
  repeat split; try reflexivity. discriminate.
Qed.

(** C5, as amended. A format override that is a list, or a string other
    than the empty one, is the format: [getArguments] returns what
    [formatOpenPath] makes of it, whatever the editor. *)
Theorem getArguments_override
    (table : Platform -> list (string * list string)) (h : Host)
    (params : GetArgumentsParams) (override : Format) :
  pathFormat params = Some override ->
  Format_truthy override = true ->
  getArguments table h params
  = formatOpenPath (fileName params) (lineNumber params) (colNumber params)
      override.
Proof.
  intros Hsome Htruthy. unfold getArguments, orFormat.
  now rewrite Hsome, Htruthy.
Qed.

Lemma getArguments_override_witness :
  Format_truthy (FList ["{file}"; "--goto"; "{line}"]) = true
  /\ getArguments sampleProcessMap (sampleHost linux None None)
       (sampleArguments "code" "/a/b.js"
          (Some (FList ["{file}"; "--goto"; "{line}"])))
     = ["/a/b.js"; "--goto"; "10"].
Proof.
  split; [reflexivity |].
  exact (getArguments_override sampleProcessMap (sampleHost linux None None)
           (sampleArguments "code" "/a/b.js"
              (Some (FList ["{file}"; "--goto"; "{line}"])))
           (FList ["{file}"; "--goto"; "{line}"]) eq_refl eq_refl).
Defined.

(** C5, as stated, fails for the empty string: it is a string override,
    substitution into it gives the empty argument, and the code uses the
    editor's own rule. *)
Lemma getArguments_empty_override_ignored :
  formatOpenPath "/a/b.js" (Num 10) (Num 5) (FStr "") = [""]
  /\ getArguments sampleProcessMap (sampleHost linux None None)
       (sampleArguments "code" "/a/b.js" (Some (FStr "")))
     = ["-g"; "/a/b.js:10:5"].
Proof.
  split; reflexivity.
Qed.

(** C6. The replacement text is not taken literally: [replace] expands
    the patterns of a dollar sign in it. For a file whose name holds
    [$$], the template [{file}:{line}:{column}] gives a name with one
    dollar sign, where literal substitution keeps both; a name with [$&]
    gets the placeholder back. *)
Theorem formatOpenPath_expands_dollar_patterns :
  formatOpenPath "/src/$$id.js" (Num 10) (Num 5) (FStr "{file}:{line}:{column}")
  = ["/src/$id.js:10:5"]
  /\ formatOpenPathLiteral "/src/$$id.js" (Num 10) (Num 5)
       (FStr "{file}:{line}:{column}")
     = ["/src/$$id.js:10:5"]
  /\ formatOpenPath "/src/$$id.js" (Num 10) (Num 5)
       (FStr "{file}:{line}:{column}")
     <> formatOpenPathLiteral "/src/$$id.js" (Num 10) (Num 5)
          (FStr "{file}:{line}:{column}")
  /\ formatOpenPath "/src/$&.js" (Num 10) (Num 5) (FList ["{file}"; "{line}"])
     = ["/src/{file}.js"; "10"].
Proof.
  repeat split; try reflexivity. vm_compute. discriminate.
Qed.

(* ================================================================== *)
(** ** Normalization of the editor name *)
(* ================================================================== *)

Section BasenameFacts.

Import NodePath.

Lemma dropWhile_none {A} (f : A -> bool) (l : list A) :
  forallb (fun x => negb (f x)) l = true -> dropWhile f l = l.
Proof.
  destruct l as [| x l]; simpl; [reflexivity |].
  intros H. apply andb_true_iff in H as [Hx _].
  apply negb_true_iff in Hx. now rewrite Hx.
Qed.

Lemma takeWhile_all {A} (f : A -> bool) (l : list A) :
  forallb f l = true -> takeWhile f l = l.
Proof.
  induction l as [| x l IH]; simpl; [reflexivity |].
  intros H. apply andb_true_iff in H as [Hx Hl].
  now rewrite Hx, IH.
Qed.

Lemma takeWhile_forallb {A} (f : A -> bool) (l : list A) :
  forallb f (takeWhile f l) = true.
Proof.
  induction l as [| x l IH]; simpl; [reflexivity |].
  destruct (f x) eqn:E; simpl; [now rewrite E | reflexivity].
Qed.

Lemma forallb_rev {A} (f : A -> bool) (l : list A) :
  forallb f (rev l) = forallb f l.
Proof.
  induction l as [| x l IH]; simpl; [reflexivity |].
  rewrite forallb_app, IH. simpl. rewrite andb_true_r. apply andb_comm.
Qed.

(** A component without separator is its own last component. *)
Lemma lastComponent_bare (isSep : ascii -> bool) (l : list ascii) :
  forallb (fun c => negb (isSep c)) l = true ->
  lastComponent isSep l = l.
Proof.
  intros H. unfold lastComponent.
  rewrite dropWhile_none by now rewrite forallb_rev.
  rewrite takeWhile_all by now rewrite forallb_rev.
  apply rev_involutive.
Qed.

Lemma lastComponent_no_separator (isSep : ascii -> bool) (l : list ascii) :
  forallb (fun c => negb (isSep c)) (lastComponent isSep l) = true.
Proof.
  unfold lastComponent. rewrite forallb_rev. apply takeWhile_forallb.
Qed.

Lemma ofChars_chars (s : string) : ofChars (chars s) = s.
Proof. apply string_of_list_ascii_of_string. Qed.

Lemma chars_ofChars (l : list ascii) : chars (ofChars l) = l.
Proof. apply list_ascii_of_string_of_list_ascii. Qed.

Lemma basename_bare (p : Platform) (s : string) :
  isBareName p s = true -> basename p s = s.
Proof.
  destruct p; simpl; intros H.
  - now rewrite lastComponent_bare, ofChars_chars.
  - now rewrite lastComponent_bare, ofChars_chars.
  - apply andb_true_iff in H as [Hsep Hdrive].
    assert (E : skipDrive (chars s) = chars s).
    { unfold skipDrive. destruct (chars s) as [| d [| c rest]]; try reflexivity.
      apply negb_true_iff in Hdrive. now rewrite Hdrive. }
    now rewrite E, lastComponent_bare, ofChars_chars.
Qed.

Lemma stripExecutableExtension_none (s : string) :
  hasExecutableExtension s = false -> stripExecutableExtension s = s.
Proof.
  unfold hasExecutableExtension, stripExecutableExtension. intros H.
  apply orb_false_iff in H as [H Hsh]. now rewrite H, Hsh.
Qed.

Lemma chars_substring_0 (n : nat) (s : string) :
  chars (substring 0 n s) = firstn n (chars s).
Proof.
  revert n. induction s as [| c s IH]; intros [| n]; simpl;
    try reflexivity.
  now rewrite IH.
Qed.

Lemma forallb_firstn {A} (f : A -> bool) (n : nat) (l : list A) :
  forallb f l = true -> forallb f (firstn n l) = true.
Proof.
  revert n. induction l as [| x l IH]; intros [| n]; simpl;
    try reflexivity.
  intros H. apply andb_true_iff in H as [Hx Hl]. now rewrite Hx, IH.
Qed.

Lemma stripExecutableExtension_forallb (f : ascii -> bool) (s : string) :
  forallb f (chars s) = true ->
  forallb f (chars (stripExecutableExtension s)) = true.
Proof.
  intros H. unfold stripExecutableExtension, dropLast.
  destruct (_ || _); [| destruct (hasExtension s ".sh")];
    try assumption;
    rewrite chars_substring_0; now apply forallb_firstn.
Qed.

Lemma isPosixSeparator_toLowerChar (c : ascii) :
  isPosixSeparator (toLowerChar c) = isPosixSeparator c.
Proof.
  destruct c as [[] [] [] [] [] [] [] []]; reflexivity.
Qed.

Lemma toLowerCase_no_separator (s : string) :
  forallb (fun c => negb (isPosixSeparator c)) (chars s) = true ->
  forallb (fun c => negb (isPosixSeparator c)) (chars (toLowerCase s)) = true.
Proof.
  induction s as [| c s IH]; simpl; [reflexivity |].
  intros H. apply andb_true_iff in H as [Hc Hs].
  now rewrite isPosixSeparator_toLowerChar, Hc, IH.
Qed.

End BasenameFacts.

Section Normalization.

Variable table : Platform -> list (string * list string).
Variable h : Host.

Lemma getEditorBasenameByProcessName_lower (processName : string) :
  toLowerCase (getEditorBasenameByProcessName table h processName)
  = getEditorBasenameByProcessName table h processName.
Proof.
  unfold getEditorBasenameByProcessName. apply toLowerCase_idempotent.
Qed.

(** A process name that the table does not match is normalized
    through its base name alone. *)
Lemma getEditorBasenameByProcessName_unmatched (processName : string) :
  matchProcessName processName (table (platform h)) = None ->
  getEditorBasenameByProcessName table h processName
  = toLowerCase
      (stripExecutableExtension
         (NodePath.basename (platform h) processName)).
Proof.
  intros Hm. unfold getEditorBasenameByProcessName. now rewrite Hm.
Qed.

(** Off win32, the normal form of a process name that the table does
    not match has no directory part. *)
Lemma getEditorBasenameByProcessName_bare (processName : string) :
  platform h <> win32 ->
  matchProcessName processName (table (platform h)) = None ->
  isBareName (platform h)
    (getEditorBasenameByProcessName table h processName) = true.
Proof.
  intros Hp Hm. unfold getEditorBasenameByProcessName. rewrite Hm.
  destruct (platform h) eqn:E; [| | contradiction]; simpl;
    apply toLowerCase_no_separator, stripExecutableExtension_forallb;
    unfold ofChars, chars; rewrite list_ascii_of_string_of_list_ascii;
    apply lastComponent_no_separator.
Qed.

(** A name in lower case, without extension to strip and without
    directory part, that the table leaves alone or maps to itself, is
    its own normal form. *)
Lemma getEditorBasenameByProcessName_fixed (c : string) :
  toLowerCase c = c ->
  hasExecutableExtension c = false ->
  isBareName (platform h) c = true ->
  (forall name,
      matchProcessName c (table (platform h)) = Some name ->
      toLowerCase name = c) ->
  getEditorBasenameByProcessName table h c = c.
Proof.
  intros Hlower Hext Hbare Htable.
  unfold getEditorBasenameByProcessName.
  destruct (matchProcessName c (table (platform h))) as [name |] eqn:E.
  - now apply Htable.
  - rewrite basename_bare by exact Hbare.
    now rewrite stripExecutableExtension_none.
Qed.

(** Off win32, for a process name and a normal form that the table does
    not match, the extension is all that can change. *)
Lemma getEditorBasenameByProcessName_unmatched_stable (processName : string) :
  platform h <> win32 ->
  matchProcessName processName (table (platform h)) = None ->
  matchProcessName (getEditorBasenameByProcessName table h processName)
    (table (platform h)) = None ->
  hasExecutableExtension
    (getEditorBasenameByProcessName table h processName) = false ->
  getEditorBasenameByProcessName table h
    (getEditorBasenameByProcessName table h processName)
  = getEditorBasenameByProcessName table h processName.
Proof.
  intros Hp Hm Hc Hext.
  apply getEditorBasenameByProcessName_fixed.
  - apply getEditorBasenameByProcessName_lower.
  - exact Hext.
  - now apply getEditorBasenameByProcessName_bare.
  - intros name H. rewrite Hc in H. discriminate H.
Qed.

(** C9, as amended. Normalizing a normal form [c] gives [c] again when
    [c] has none of the four extensions left, has no directory part, and
    the table, if one of its process paths ends [c], gives an editor
    whose name in lower case is [c]. *)
Theorem getEditorBasenameByProcessName_stable (processName : string) :
  let c := getEditorBasenameByProcessName table h processName in
  hasExecutableExtension c = false ->
  isBareName (platform h) c = true ->
  (forall name,
      matchProcessName c (table (platform h)) = Some name ->
      toLowerCase name = c) ->
  getEditorBasenameByProcessName table h c = c.
Proof.
  intros c Hext Hbare Htable.
  apply getEditorBasenameByProcessName_fixed; try assumption.
  apply getEditorBasenameByProcessName_lower.
Qed.

End Normalization.

Lemma getEditorBasenameByProcessName_stable_witness :
  getEditorBasenameByProcessName sampleProcessMap (sampleHost linux None None)
    (getEditorBasenameByProcessName sampleProcessMap
       (sampleHost linux None None) "/usr/bin/code")
  = getEditorBasenameByProcessName sampleProcessMap
      (sampleHost linux None None) "/usr/bin/code".
Proof.
  apply (getEditorBasenameByProcessName_stable sampleProcessMap
           (sampleHost linux None None) "/usr/bin/code").
  - reflexivity.
  - reflexivity.
  - intros name H. vm_compute in H. injection H as <-. reflexivity.
Defined.

(** C9, as stated, fails: one extension is stripped at each
    normalization, so a name with two of them has a normal form that is
    not normal. *)
Lemma getEditorBasenameByProcessName_not_idempotent :
  getEditorBasenameByProcessName sampleProcessMap (sampleHost win32 None None)
    "C:\tools\edit.bat.exe" = "edit.bat"
  /\ getEditorBasenameByProcessName sampleProcessMap
       (sampleHost win32 None None) "edit.bat" = "edit"
  /\ getEditorBasenameByProcessName sampleProcessMap
       (sampleHost win32 None None)
       (getEditorBasenameByProcessName sampleProcessMap
          (sampleHost win32 None None) "C:\tools\edit.bat.exe")
     <> getEditorBasenameByProcessName sampleProcessMap
          (sampleHost win32 None None) "C:\tools\edit.bat.exe"
  /\ getEditorBasenameByProcessName sampleProcessMap
       (sampleHost linux None None)
       (getEditorBasenameByProcessName sampleProcessMap
          (sampleHost linux None None) "/opt/bin/edit.sh.sh")
     <> getEditorBasenameByProcessName sampleProcessMap
          (sampleHost linux None None) "/opt/bin/edit.sh.sh".
Proof.
  repeat split; try reflexivity; vm_compute; discriminate.
Qed.

(* ================================================================== *)
(** ** Editor resolution *)
(* ================================================================== *)

Section Resolution.

Variable processMap : Platform -> list (string * list string).
Variable editorsMap : Platform -> list (string * string).

Local Abbreviation guess := (guessEditor processMap editorsMap).

Lemma whenTruthy_some (name : string) :
  truthy name = true -> whenTruthy (Some name) = Some name.
Proof. intros H. simpl. now rewrite H. Qed.

Lemma detectRunningEditor_events (h : Host) (custom : option CustomEditors) :
  forallb isExecSync (snd (detectRunningEditor editorsMap h custom)) = true.
Proof.
  unfold detectRunningEditor.
  destruct (execSync h (ProcessExecutionMap (platform h)));
    destruct (Platform_eqb (platform h) win32);
    try destruct (execSync h winExecBackup); reflexivity.
Qed.

(** Resolution runs commands and does nothing else. *)
Lemma guessEditor_events (h : Host) (_editor : option string) :
  forallb isExecSync (snd (guess h _editor)) = true.
Proof.
  unfold guessEditor.
  destruct (configuredEditor processMap h (env_CODE_EDITOR h)) as [r | c];
    [reflexivity |].
  match goal with
  | |- context [match ?s with Return _ => _ | Continue _ => _ end] =>
      destruct s as [r | c']; [reflexivity |]
  end.
  match goal with
  | |- context [detectRunningEditor editorsMap h ?c] =>
      pose proof (detectRunningEditor_events h c) as H;
      destruct (detectRunningEditor editorsMap h c) as [found events]
  end.
  simpl in H.
  destruct found; [exact H |].
  destruct (whenTruthy (env_VISUAL h)); exact H.
Qed.

(** C4, as amended. An editor named by the environment variable or by
    [.env.local], when the platform table object has no property of that
    name (no entry, no inherited member), is returned as it is, with no
    command run. An editor of that kind named by the caller is ignored:
    resolution goes on as if none were named. *)
Theorem guessEditor_unknown_override (h : Host) (_editor : option string)
    (name : string) :
  truthy name = true ->
  getEditorByCustom processMap h name = None ->
  (env_CODE_EDITOR h = Some name -> guess h _editor = (Some name, []))
  /\ (forall envConfig,
         whenTruthy (env_CODE_EDITOR h) = None ->
         dotEnvLocal h = Some envConfig ->
         local_CODE_EDITOR envConfig = Some name ->
         guess h _editor = (Some name, []))
  /\ guess h (Some name) = guess h None.
Proof.
  intros Htruthy Hunknown. unfold guessEditor. repeat split.
  - intros Henv. unfold configuredEditor.
    now rewrite Henv, (whenTruthy_some _ Htruthy), Hunknown.
  - intros envConfig Henv Hfile Hlocal.
    unfold configuredEditor at 1. rewrite Henv, Hfile.
    unfold configuredEditor.
    now rewrite Hlocal, (whenTruthy_some _ Htruthy), Hunknown.
  - rewrite (whenTruthy_some _ Htruthy), Hunknown.
    destruct (configuredEditor processMap h (env_CODE_EDITOR h)) as [r | c];
      [reflexivity |].
    match goal with
    | |- context [match ?s with Return _ => _ | Continue _ => _ end] =>
        destruct s as [r | c']; [reflexivity |]
    end.
    destruct c'; reflexivity.
Qed.

End Resolution.

Lemma guessEditor_unknown_override_witness :
  guessEditor sampleProcessMap sampleEditorsMap
    (sampleHost linux (Some "/opt/zed/zed") None) None
  = (Some "/opt/zed/zed", [])
  /\ guessEditor sampleProcessMap sampleEditorsMap
       (dotEnvHost darwin "/opt/zed/zed") None
     = (Some "/opt/zed/zed", []).
Proof.
  split.
  - apply (guessEditor_unknown_override sampleProcessMap sampleEditorsMap
             (sampleHost linux (Some "/opt/zed/zed") None) None "/opt/zed/zed");
      reflexivity.
  - destruct (guessEditor_unknown_override sampleProcessMap sampleEditorsMap
                (dotEnvHost darwin "/opt/zed/zed") None "/opt/zed/zed"
                eq_refl eq_refl) as (_ & H & _).
    apply (H {| local_CODE_EDITOR := Some "/opt/zed/zed";
                local_CODE_INSPECTOR_FORMAT_PATH := None |});
      reflexivity.
Defined.

(** C4, as stated, fails for the caller's parameter: the name
    [myeditor], not in the table, is not returned; the processes are
    listed and the running editor is returned. *)
Lemma guessEditor_unknown_parameter_enumerates :
  getEditorByCustom sampleProcessMap
    (sampleHost linux None (Some ("bash" ++ LF ++ "code" ++ LF))) "myeditor"
  = None
  /\ guessEditor sampleProcessMap sampleEditorsMap
       (sampleHost linux None (Some ("bash" ++ LF ++ "code" ++ LF)))
       (Some "myeditor")
     = (Some "code", [ExecSyncCall "ps -eo comm --sort=comm"]).
Proof.
  split; reflexivity.
Qed.

(** A name that the table object inherits, [constructor], is a property
    of the table without being an entry: the value found is no array,
    resolution lists the processes, and the test of the running editor
    against it throws, which leaves the fallback. *)
Lemma guessEditor_inherited_member :
  getEditorByCustom sampleProcessMap
    (sampleHost linux (Some "constructor")
       (Some ("bash" ++ LF ++ "code" ++ LF))) "constructor"
  = Some InheritedMember
  /\ guessEditor sampleProcessMap sampleEditorsMap
       (sampleHost linux (Some "constructor")
          (Some ("bash" ++ LF ++ "code" ++ LF))) None
     = (None, [ExecSyncCall "ps -eo comm --sort=comm"]).
Proof.
  split; reflexivity.
Qed.

(* ================================================================== *)
(** ** Quoting of the Windows command line *)
(* ================================================================== *)

Section WindowsQuoting.

Lemma caret_is_metacharacter (c : ascii) :
  isCmdMetacharacter c = false -> Ascii.eqb "^" c = false.
Proof.
  unfold isCmdMetacharacter. cbn [existsb]. intros H.
  do 7 (apply orb_false_iff in H; destruct H as [_ H]).
  apply orb_false_iff in H as [H _].
  now rewrite Ascii.eqb_sym.
Qed.

(** Escaping puts a caret in an argument exactly when the argument has
    a metacharacter. *)
Lemma escapeCmdArgs_caret (arg : string) :
  includes (escapeCmdArgs arg) "^" = hasCmdMetacharacter arg.
Proof.
  unfold hasCmdMetacharacter.
  induction arg as [| c arg IH]; [reflexivity |].
  simpl escapeCmdArgs. simpl chars. simpl existsb.
  destruct (isCmdMetacharacter c) eqn:E.
  - now rewrite includes_char_cons.
  - rewrite includes_char_cons, (caret_is_metacharacter c E). exact IH.
Qed.

Lemma escapeCmdArgs_plain (arg : string) :
  hasCmdMetacharacter arg = false -> escapeCmdArgs arg = arg.
Proof.
  unfold hasCmdMetacharacter.
  induction arg as [| c arg IH]; [reflexivity |].
  simpl. intros H. apply orb_false_iff in H as [Hc Harg].
  now rewrite Hc, IH.
Qed.

Lemma launchCommand_tokens (editor : string) (args : list string) :
  launchCommand editor args
  = join " " (doubleQuoteIfNeeded editor
              :: map (fun arg => doubleQuoteIfNeeded (escapeCmdArgs arg)) args).
Proof.
  unfold launchCommand. simpl map. now rewrite map_map.
Qed.

(** C7. In the command line built on win32, an argument with a
    metacharacter, which escaping gives a caret, is put between
    [^"] and [^"]; any other argument with a space is put between
    double quotes; any other is left as it is. The three cases exclude
    each other, and the argument [C:\My Projects\a.js:1:1] falls in the
    second. *)
Theorem windows_argument_quoting (editor arg : string) (args : list string) :
  launchCommand editor args
  = join " " (doubleQuoteIfNeeded editor
              :: map (fun a => doubleQuoteIfNeeded (escapeCmdArgs a)) args)
  /\ includes (escapeCmdArgs arg) "^" = hasCmdMetacharacter arg
  /\ doubleQuoteIfNeeded (escapeCmdArgs arg)
     = (if hasCmdMetacharacter arg
        then "^" ++ DQUOTE ++ escapeCmdArgs arg ++ "^" ++ DQUOTE
        else if includes arg " "
             then DQUOTE ++ arg ++ DQUOTE
             else arg)
  /\ doubleQuoteIfNeeded (escapeCmdArgs "C:\My Projects\a.js:1:1")
     = DQUOTE ++ "C:\My Projects\a.js:1:1" ++ DQUOTE.
Proof.
  split; [apply launchCommand_tokens |].
  split; [apply escapeCmdArgs_caret |].
  split; [| reflexivity].
  unfold doubleQuoteIfNeeded. rewrite escapeCmdArgs_caret.
  destruct (hasCmdMetacharacter arg) eqn:E; [reflexivity |].
  now rewrite (escapeCmdArgs_plain arg E).
Qed.

End WindowsQuoting.

(* ================================================================== *)
(** ** The launch *)
(* ================================================================== *)

Section LaunchFacts.

Variable processMap : Platform -> list (string * list string).
Variable editorsMap : Platform -> list (string * string).
Variables cyan green : string -> string.

Local Abbreviation guess := (guessEditor processMap editorsMap).
Local Abbreviation launch := (launchIDE processMap editorsMap cyan green).

(** The launch of a request whose file exists and whose editor is
    recognized. *)
Lemma launchIDE_recognized (h : Host) (params : LaunchIDEParams)
    (st : LaunchState) (e : string) (guessed : list Event) :
  existsSync h (file params) = true ->
  guess h (editor params) = (Some e, guessed) ->
  truthy e = true ->
  String.eqb (toLowerCase e) "none" = false ->
  launch h params st
  = ({| _childProcess := Some (created st); created := S (created st) |},
     List.app guessed
       (List.app (killEvents st e)
          [startEvent h e
             (launchArgs processMap h params e (wslFile h (file params))
                (lineOrDefault params) (columnOrDefault params)
                (orOptionalFormat (getEnvFormatPath h) (format params)))])).
Proof.
  intros Hfile Hguess Htruthy Hnone. unfold launchIDE.
  now rewrite Hfile, Hguess, Htruthy, Hnone.
Qed.

Lemma isTerminalEditor_recognized (e : string) :
  isTerminalEditor e = true ->
  truthy e = true /\ String.eqb (toLowerCase e) "none" = false.
Proof.
  unfold isTerminalEditor, oneOf. simpl. intros H.
  repeat (apply orb_true_iff in H; destruct H as [H | H]);
    try discriminate H;
    apply String.eqb_eq in H; subst e; split; reflexivity.
Qed.

Lemma no_kill_among_execSync (events : list Event) :
  forallb isExecSync events = true -> existsb isKill events = false.
Proof.
  induction events as [| ev events IH]; simpl; [reflexivity |].
  intros H. apply andb_true_iff in H as [Hev Hrest].
  destruct ev; try discriminate Hev. simpl. now apply IH.
Qed.

Lemma no_start_among_execSync (events : list Event) :
  forallb isExecSync events = true -> existsb isStart events = false.
Proof.
  induction events as [| ev events IH]; simpl; [reflexivity |].
  intros H. apply andb_true_iff in H as [Hev Hrest].
  destruct ev; try discriminate Hev. simpl. now apply IH.
Qed.

Lemma unrecognized_events (params : LaunchIDEParams) :
  existsb isKill (unrecognized cyan green params) = false
  /\ existsb isStart (unrecognized cyan green params) = false.
Proof.
  unfold unrecognized, report. destruct (onError params); split; reflexivity.
Qed.

Lemma startEvent_isStart (h : Host) (e : string) (args : list string) :
  isStart (startEvent h e args) = true /\ isKill (startEvent h e args) = false.
Proof.
  unfold startEvent. destruct (Platform_eqb (platform h) win32);
    split; reflexivity.
Qed.

(** A request without line is the request for line 1. *)
Lemma launchIDE_omitted_line (h : Host) (params : LaunchIDEParams)
    (st : LaunchState) :
  line params = None ->
  launch h params st = launch h (withLine params (Some 1%Z)) st.
Proof.
  intros H. unfold launchIDE, lineOrDefault, columnOrDefault,
    unrecognized, report. simpl.
  rewrite H. reflexivity.
Qed.

(** When the file exists and an editor [e] is recognized: a request
    without line is launched with the arguments [getArguments] gives for
    line 1, placeholders substituted; for the line 0 the argument list
    is the file alone. *)
Theorem launchIDE_arguments_by_line (h : Host) (params : LaunchIDEParams)
    (st : LaunchState) (e : string) (guessed : list Event) :
  existsSync h (file params) = true ->
  guess h (editor params) = (Some e, guessed) ->
  truthy e = true ->
  String.eqb (toLowerCase e) "none" = false ->
  (line params = None ->
   snd (launch h params st)
   = List.app guessed
       (List.app (killEvents st e)
          [startEvent h e
             (getArguments processMap h
                {| processName := e;
                   fileName := wslFile h (file params);
                   lineNumber := Num 1;
                   colNumber := Num (columnOrDefault params);
                   arg_workspace := None;
                   arg_openWindowParams := getOpenWindowParams (method params);
                   pathFormat :=
                     orOptionalFormat (getEnvFormatPath h) (format params) |})]))
  /\ (line params = Some 0%Z ->
      snd (launch h params st)
      = List.app guessed
          (List.app (killEvents st e)
             [startEvent h e [wslFile h (file params)]])).
Proof.
  intros Hfile Hguess Htruthy Hnone.
  rewrite (launchIDE_recognized h params st e guessed Hfile Hguess Htruthy Hnone).
  unfold launchArgs, lineOrDefault. split; intros Hline; rewrite Hline;
    reflexivity.
Qed.

(** C3, as amended. A launch that resolves one of [vim], [emacs],
    [nano] while a process is tracked sends [SIGKILL] to that process,
    whatever editor it runs, and then creates the new process; a launch
    that resolves any other editor sends no signal. *)
Theorem launchIDE_kill_policy (h : Host) (params : LaunchIDEParams)
    (st : LaunchState) :
  (forall e guessed child,
      existsSync h (file params) = true ->
      guess h (editor params) = (Some e, guessed) ->
      isTerminalEditor e = true ->
      _childProcess st = Some child ->
      snd (launch h params st)
      = List.app guessed
          [KillCall child "SIGKILL";
           startEvent h e
             (launchArgs processMap h params e (wslFile h (file params))
                (lineOrDefault params) (columnOrDefault params)
                (orOptionalFormat (getEnvFormatPath h) (format params)))]
        /\ existsb isKill guessed = false
        /\ existsb isStart guessed = false
        /\ _childProcess (fst (launch h params st)) = Some (created st))
  /\ ((forall e, fst (guess h (editor params)) = Some e ->
                 isTerminalEditor e = false) ->
      existsb isKill (snd (launch h params st)) = false).
Proof.
  split.
  - intros e guessed child Hfile Hguess Hterm Hchild.
    destruct (isTerminalEditor_recognized e Hterm) as [Htruthy Hnone].
    rewrite (launchIDE_recognized h params st e guessed Hfile Hguess
               Htruthy Hnone).
    pose proof (guessEditor_events processMap editorsMap h (editor params))
      as Hev.
    rewrite Hguess in Hev. simpl in Hev.
    unfold killEvents. rewrite Hchild, Hterm. simpl.
    repeat split.
    + now apply no_kill_among_execSync.
    + now apply no_start_among_execSync.
  - intros Hnot. unfold launchIDE.
    destruct (existsSync h (file params)); [| reflexivity]. simpl negb.
    cbv iota.
    pose proof (guessEditor_events processMap editorsMap h (editor params))
      as Hev.
    destruct (guess h (editor params)) as [[e |] guessed]; simpl in Hev, Hnot.
    + destruct (negb (truthy e) || String.eqb (toLowerCase e) "none").
      * simpl. rewrite existsb_app, (no_kill_among_execSync _ Hev).
        apply unrecognized_events.
      * simpl. rewrite !existsb_app, (no_kill_among_execSync _ Hev).
        unfold killEvents. rewrite (Hnot e eq_refl).
        destruct (_childProcess st); simpl;
          now rewrite (proj2 (startEvent_isStart _ _ _)).
    + simpl. rewrite existsb_app, (no_kill_among_execSync _ Hev).
      apply unrecognized_events.
Qed.

(** C8. A request whose file does not exist does nothing: no event, the
    state as it was. *)
Theorem launchIDE_missing_file (h : Host) (params : LaunchIDEParams)
    (st : LaunchState) :
  existsSync h (file params) = false ->
  launch h params st = (st, []).
Proof.
  intros H. unfold launchIDE. now rewrite H.
Qed.

(** C10. An editor resolved as [none], in any letter case, is an editor
    not resolved: after the commands of the resolution, the callback is
    called with the message [Failed to recognize IDE automatically] when
    there is one, the advice is printed otherwise; no process is created
    and the state is as it was. *)
Theorem launchIDE_none_editor (h : Host) (params : LaunchIDEParams)
    (st : LaunchState) (e : string) (guessed : list Event) :
  existsSync h (file params) = true ->
  guess h (editor params) = (Some e, guessed) ->
  toLowerCase e = "none" ->
  launch h params st
  = (st,
     List.app guessed
       [if onError params
        then OnErrorCall (file params) "Failed to recognize IDE automatically"
        else ConsoleLog ("Failed to recognize IDE automatically, "
                         ++ setupAdvice cyan green)])
  /\ existsb isStart (snd (launch h params st)) = false
  /\ (forall h',
         existsSync h' (file params) = true ->
         guess h' (editor params) = (None, guessed) ->
         launch h' params st = launch h params st).
Proof.
  intros Hfile Hguess Hnone.
  assert (E : launch h params st
              = (st, List.app guessed (unrecognized cyan green params))).
  { unfold launchIDE. rewrite Hfile, Hguess, Hnone. simpl.
    now rewrite orb_true_r. }
  repeat split.
  - rewrite E. unfold unrecognized, report, failedToRecognize.
    now destruct (onError params).
  - rewrite E. simpl. rewrite existsb_app.
    pose proof (guessEditor_events processMap editorsMap h (editor params))
      as Hev.
    rewrite Hguess in Hev. simpl in Hev.
    rewrite (no_start_among_execSync _ Hev).
    apply unrecognized_events.
  - intros h' Hfile' Hguess'. rewrite E.
    unfold launchIDE. now rewrite Hfile', Hguess'.
Qed.

End LaunchFacts.

(* ================================================================== *)
(** ** Concrete runs *)
(* ================================================================== *)

Lemma launchIDE_arguments_by_line_witness :
  snd (sampleLaunch (sampleHost linux (Some "/usr/local/bin/code") None)
         (sampleRequest "/a/b.js" None true) initialState)
  = [SpawnCall "/usr/local/bin/code" ["-g"; "/a/b.js:1:1"]]
  /\ snd (sampleLaunch (sampleHost linux (Some "/usr/local/bin/code") None)
            (sampleRequest "/a/b.js" (Some 0%Z) true) initialState)
     = [SpawnCall "/usr/local/bin/code" ["/a/b.js"]].
Proof.
  split.
  - exact (proj1 (launchIDE_arguments_by_line sampleProcessMap sampleEditorsMap
                    plain plain
                    (sampleHost linux (Some "/usr/local/bin/code") None)
                    (sampleRequest "/a/b.js" None true) initialState
                    "/usr/local/bin/code" [] eq_refl eq_refl eq_refl eq_refl)
             eq_refl).
  - exact (proj2 (launchIDE_arguments_by_line sampleProcessMap sampleEditorsMap
                    plain plain
                    (sampleHost linux (Some "/usr/local/bin/code") None)
                    (sampleRequest "/a/b.js" (Some 0%Z) true) initialState
                    "/usr/local/bin/code" [] eq_refl eq_refl eq_refl eq_refl)
             eq_refl).
Defined.

(** C2. A request without line is not launched with the file alone.
    The default [line = 1] of the destructuring makes [if (line)] take
    the branch its comment keeps for a line that is given: the
    placeholders are substituted and the editor gets the position [1:1]
    after its flag. *)
Lemma launchIDE_omitted_line_substitutes :
  line (sampleRequest "/a/b.js" None true) = None
  /\ snd (sampleLaunch (sampleHost linux (Some "/usr/local/bin/code") None)
            (sampleRequest "/a/b.js" None true) initialState)
     = [SpawnCall "/usr/local/bin/code" ["-g"; "/a/b.js:1:1"]]
  /\ snd (sampleLaunch (sampleHost linux (Some "/usr/local/bin/code") None)
            (sampleRequest "/a/b.js" None true) initialState)
     <> [SpawnCall "/usr/local/bin/code" ["/a/b.js"]].
Proof.
  repeat split; try reflexivity. discriminate.
Qed.

Lemma launchIDE_kill_policy_witness :
  snd (sampleLaunch (sampleHost linux (Some "vim") None)
         (sampleRequest "/a/b.js" (Some 3%Z) true)
         {| _childProcess := Some 0; created := 1 |})
  = [KillCall 0 "SIGKILL";
     SpawnCall "vim" ["+call cursor(3, 1)"; "/a/b.js"]]
  /\ existsb isKill
       (snd (sampleLaunch (sampleHost linux (Some "subl") None)
               (sampleRequest "/a/b.js" (Some 3%Z) true)
               {| _childProcess := Some 0; created := 1 |}))
     = false.
Proof.
  split.
  - exact (proj1
             (proj1 (launchIDE_kill_policy sampleProcessMap sampleEditorsMap
                       plain plain (sampleHost linux (Some "vim") None)
                       (sampleRequest "/a/b.js" (Some 3%Z) true)
                       {| _childProcess := Some 0; created := 1 |})
                "vim" [] 0 eq_refl eq_refl eq_refl eq_refl)).
  - apply (proj2 (launchIDE_kill_policy sampleProcessMap sampleEditorsMap
                    plain plain (sampleHost linux (Some "subl") None)
                    (sampleRequest "/a/b.js" (Some 3%Z) true)
                    {| _childProcess := Some 0; created := 1 |})).
    intros e H. vm_compute in H. injection H as <-. reflexivity.
Defined.

(** C3, as stated, fails in its last part: the process of an editor that
    is not a terminal editor is tracked like any other, and the next
    launch of a terminal editor kills it. Here [subl] is launched, then
    [vim]. *)
Lemma non_terminal_editor_killed_by_next_launch :
  isTerminalEditor "subl" = false
  /\ sampleLaunch (sampleHost linux (Some "subl") None)
       (sampleRequest "/a/b.js" (Some 3%Z) true) initialState
     = ({| _childProcess := Some 0; created := 1 |},
        [SpawnCall "subl" ["/a/b.js:3:1"]])
  /\ snd (sampleLaunch (sampleHost linux (Some "vim") None)
            (sampleRequest "/a/b.js" (Some 3%Z) true)
            (fst (sampleLaunch (sampleHost linux (Some "subl") None)
                    (sampleRequest "/a/b.js" (Some 3%Z) true) initialState)))
     = [KillCall 0 "SIGKILL";
        SpawnCall "vim" ["+call cursor(3, 1)"; "/a/b.js"]].
Proof.
  repeat split; reflexivity.
Qed.

Lemma launchIDE_missing_file_witness :
  existsSync (emptyDiskHost linux) "/a/b.js" = false
  /\ sampleLaunch (emptyDiskHost linux) (sampleRequest "/a/b.js" None true)
       initialState
     = (initialState, []).
Proof.
  split; [reflexivity |].
  apply (launchIDE_missing_file sampleProcessMap sampleEditorsMap plain plain
           (emptyDiskHost linux) (sampleRequest "/a/b.js" None true)
           initialState).
  reflexivity.
Defined.

Lemma launchIDE_none_editor_witness :
  toLowerCase "NoNe" = "none"
  /\ sampleLaunch (sampleHost win32 (Some "NoNe") None)
       (sampleRequest "C:\src\a.js" None true) initialState
     = (initialState,
        [OnErrorCall "C:\src\a.js" "Failed to recognize IDE automatically"]).
Proof.
  split; [reflexivity |].
  exact (proj1 (launchIDE_none_editor sampleProcessMap sampleEditorsMap
                  plain plain (sampleHost win32 (Some "NoNe") None)
                  (sampleRequest "C:\src\a.js" None true) initialState
                  "NoNe" [] eq_refl eq_refl eq_refl)).
Defined.

(* ================================================================== *)
(** ** Further properties: substitution into the family templates *)
(* ================================================================== *)

Section TemplateFacts.

Lemma string_app_assoc (a b c : string) : (a ++ b) ++ c = a ++ b ++ c.
Proof.
  induction a as [| x a IH]; simpl; [reflexivity | now rewrite IH].
Qed.

Lemma includes_cons_false (c : ascii) (s pat : string) :
  includes (String c s) pat = false -> includes s pat = false.
Proof.
  unfold includes. simpl.
  destruct (dropPrefix pat (String c s)); [discriminate |].
  destruct (findFirst pat s) as [[b a] |]; [discriminate | reflexivity].
Qed.

Lemma includes_here_false (s pat : string) :
  includes s pat = false -> dropPrefix pat s = None.
Proof.
  unfold includes. destruct s; simpl;
    destruct (dropPrefix pat _); [discriminate | reflexivity
                                 | discriminate | reflexivity].
Qed.

(** A pattern that starts in [f] and does not hold the character that
    follows [f] lies in [f]. *)
Lemma dropPrefix_before_separator (pat f rest : string) (sep : ascii) :
  includes pat (String sep "") = false ->
  dropPrefix pat (f ++ String sep rest) <> None ->
  dropPrefix pat f <> None.
Proof.
  revert f. induction pat as [| a pat IH]; intros f Hsep H.
  - discriminate.
  - rewrite includes_char_cons in Hsep.
    apply orb_false_iff in Hsep as [Ha Hpat].
    destruct f as [| b f]; simpl in *.
    + rewrite Ascii.eqb_sym, Ha in H. contradiction.
    + destruct (Ascii.eqb a b); [now apply IH | assumption].
Qed.

(** The first occurrence of a pattern after a text that holds none,
    across a character the pattern does not hold. *)
Lemma findFirst_after_separator (pat f rest : string) (sep : ascii) :
  includes f pat = false ->
  includes pat (String sep "") = false ->
  findFirst pat (f ++ String sep rest)
  = match findFirst pat rest with
    | Some (b, a) => Some (f ++ String sep b, a)
    | None => None
    end.
Proof.
  intros Hf Hsep. induction f as [| c f IH].
  - simpl append.
    assert (E : dropPrefix pat (String sep rest) = None).
    { destruct (dropPrefix pat (String sep rest)) eqn:E; [| reflexivity].
      exfalso.
      apply (dropPrefix_before_separator pat "" rest sep Hsep).
      - simpl append. now rewrite E.
      - now apply includes_here_false. }
    simpl findFirst. rewrite E.
    destruct (findFirst pat rest) as [[b a] |]; reflexivity.
  - simpl append.
    assert (E : dropPrefix pat (String c (f ++ String sep rest)) = None).
    { destruct (dropPrefix pat (String c (f ++ String sep rest))) eqn:E;
        [| reflexivity].
      exfalso.
      apply (dropPrefix_before_separator pat (String c f) rest sep Hsep).
      - simpl append. now rewrite E.
      - now apply includes_here_false. }
    simpl findFirst. rewrite E, (IH (includes_cons_false _ _ _ Hf)).
    destruct (findFirst pat rest) as [[b a] |]; reflexivity.
Qed.

Lemma findFirst_here (pat rest : string) :
  findFirst pat (pat ++ rest) = Some ("", rest).
Proof.
  destruct (pat ++ rest) eqn:E; simpl; rewrite <- E, dropPrefix_complete;
    reflexivity.
Qed.

(** A text without the first character of a pattern holds no occurrence
    of it. *)
Lemma includes_first_char (c : ascii) (pat s : string) :
  includes s (String c "") = false -> includes s (String c pat) = false.
Proof.
  induction s as [| d s IH]; intros H.
  - reflexivity.
  - rewrite includes_char_cons in H.
    apply orb_false_iff in H as [Hd Hs].
    unfold includes in *. simpl. rewrite Hd.
    specialize (IH Hs).
    destruct (findFirst (String c pat) s) as [[b a] |];
      [discriminate | reflexivity].
Qed.

Lemma includes_after_clean (c : ascii) (pat p s : string) :
  includes p (String c "") = false ->
  includes (p ++ s) (String c pat) = includes s (String c pat).
Proof.
  induction p as [| d p IH]; intros H.
  - reflexivity.
  - rewrite includes_char_cons in H.
    apply orb_false_iff in H as [Hd Hp].
    specialize (IH Hp). unfold includes in *. simpl. rewrite Hd.
    destruct (findFirst (String c pat) (p ++ s)) as [[b a] |];
      destruct (findFirst (String c pat) s) as [[b' a'] |];
      try reflexivity; discriminate IH.
Qed.

Lemma findFirst_after_clean (c : ascii) (pat p rest : string) :
  includes p (String c "") = false ->
  findFirst (String c pat) (p ++ String c pat ++ rest) = Some (p, rest).
Proof.
  induction p as [| d p IH]; intros H.
  - apply (findFirst_here (String c pat)).
  - rewrite includes_char_cons in H.
    apply orb_false_iff in H as [Hd Hp].
    specialize (IH Hp). simpl in *. rewrite Hd, IH. reflexivity.
Qed.

Lemma includes_char_append (c : ascii) (a b : string) :
  includes (a ++ b) (String c "")
  = includes a (String c "") || includes b (String c "").
Proof.
  induction a as [| d a IH]; simpl append.
  - reflexivity.
  - rewrite !includes_char_cons, IH. apply orb_assoc.
Qed.

(** A number prints with digits and a sign: no brace. *)
Lemma string_of_uint_no_brace (d : Decimal.uint) :
  includes (NilEmpty.string_of_uint d) "{" = false.
Proof.
  induction d; simpl; try reflexivity;
    rewrite includes_char_cons; simpl; assumption.
Qed.

Lemma numberToString_no_brace (z : Z) :
  includes (numberToString z) "{" = false.
Proof.
  unfold numberToString, NilZero.string_of_int.
  destruct (Z.to_int z) as [d | d]; unfold NilZero.string_of_uint.
  - destruct d; try apply (string_of_uint_no_brace (_ d)); reflexivity.
  - rewrite includes_char_cons; simpl.
    destruct d; try apply (string_of_uint_no_brace (_ d)); reflexivity.
Qed.

(** The replacement of a placeholder found at a known place by a text
    without dollar sign. *)
Lemma replace_found (s pat repl b a : string) :
  findFirst pat s = Some (b, a) ->
  includes repl "$" = false ->
  replace s pat repl = b ++ repl ++ a.
Proof.
  intros Hfind Hplain. unfold replace. rewrite Hfind.
  now rewrite getSubstitution_plain.
Qed.

End TemplateFacts.

Section FamilyTemplates.

Variable file : string.
Variables l c : Z.

Local Abbreviation L := (numberToString l).
Local Abbreviation C := (numberToString c).
Local Abbreviation subst := (replacePlaceholders file (Num l) (Num c)).

Lemma plainFileName_parts :
  plainFileName file = true ->
  includes file "$" = false
  /\ includes file FormatLine = false
  /\ includes file FormatColumn = false.
Proof.
  unfold plainFileName. intros H.
  apply andb_true_iff in H as [H Hc]. apply andb_true_iff in H as [Hd Hl].
  now rewrite <- !negb_true_iff.
Qed.

(** A fragment without placeholder is an argument as it is. *)
Lemma replacePlaceholders_free (line column : StrOrNum) (t : string) :
  placeholderFree t = true ->
  replacePlaceholders file line column t = t.
Proof.
  unfold placeholderFree, replacePlaceholders. intros H.
  apply andb_true_iff in H as [H Hc]. apply andb_true_iff in H as [Hf Hl].
  apply negb_true_iff in Hf, Hl, Hc.
  now rewrite (replace_absent _ _ _ Hf), (replace_absent _ _ _ Hl),
    (replace_absent _ _ _ Hc).
Qed.

Lemma number_no_placeholder (z : Z) (pat : string) :
  includes (numberToString z) (String "{" pat) = false.
Proof. apply includes_first_char, numberToString_no_brace. Qed.

(** [{file}:{line}:{column}] *)
Lemma replacePlaceholders_position :
  plainFileName file = true ->
  subst "{file}:{line}:{column}" = position file l c.
Proof.
  intros H. destruct (plainFileName_parts H) as (Hd & Hl & Hc).
  unfold replacePlaceholders, toString, position.
  rewrite (replace_found "{file}:{line}:{column}" FormatFile file
             "" ":{line}:{column}" eq_refl Hd).
  simpl append.
  assert (E1 : findFirst FormatLine (file ++ ":{line}:{column}")
               = Some (file ++ ":", ":{column}")).
  { now rewrite (findFirst_after_separator FormatLine file "{line}:{column}"
                   ":" Hl eq_refl). }
  rewrite (replace_found _ _ L _ _ E1 (numberToString_plain l)).
  assert (E2 : findFirst FormatColumn ((file ++ ":") ++ L ++ ":{column}")
               = Some ((file ++ ":") ++ L ++ ":", "")).
  { rewrite string_app_assoc. simpl append.
    rewrite (findFirst_after_separator FormatColumn file (L ++ ":{column}")
               ":" Hc eq_refl).
    rewrite (findFirst_after_separator FormatColumn L "{column}" ":"
               (number_no_placeholder l _) eq_refl).
    simpl. now rewrite !string_app_assoc. }
  rewrite (replace_found _ _ C _ _ E2 (numberToString_plain c)).
  now rewrite append_empty_r, !string_app_assoc.
Qed.

(** [p{line}m{column}q], where [p] and [m] hold no brace. *)
Lemma replacePlaceholders_line_column (p m q : string) :
  includes (p ++ "{line}" ++ m ++ "{column}" ++ q) FormatFile = false ->
  includes p "{" = false ->
  includes m "{" = false ->
  subst (p ++ "{line}" ++ m ++ "{column}" ++ q) = p ++ L ++ m ++ C ++ q.
Proof.
  intros Hfile Hp Hm. unfold replacePlaceholders, toString.
  rewrite (replace_absent _ _ _ Hfile). unfold FormatLine, FormatColumn.
  rewrite (replace_found _ _ L _ _
             (findFirst_after_clean "{" "line}" p (m ++ "{column}" ++ q) Hp)
             (numberToString_plain l)).
  assert (E : findFirst "{column}" (p ++ L ++ m ++ "{column}" ++ q)
              = Some (p ++ L ++ m, q)).
  { assert (A : p ++ L ++ m ++ "{column}" ++ q
                = (p ++ L ++ m) ++ "{column}" ++ q)
      by now rewrite !string_app_assoc.
    rewrite A. apply (findFirst_after_clean "{" "column}").
    now rewrite !includes_char_append, Hp, Hm, numberToString_no_brace. }
  rewrite (replace_found _ _ C _ _ E (numberToString_plain c)).
  now rewrite !string_app_assoc.
Qed.

(** [p{line}], where [p] holds no brace. *)
Lemma replacePlaceholders_line (p : string) :
  includes (p ++ "{line}") FormatFile = false ->
  includes p "{" = false ->
  subst (p ++ "{line}") = p ++ L.
Proof.
  intros Hfile Hp. unfold replacePlaceholders, toString.
  rewrite (replace_absent _ _ _ Hfile). unfold FormatLine, FormatColumn.
  pose proof (findFirst_after_clean "{" "line}" p "" Hp) as E.
  rewrite append_empty_r in E.
  rewrite (replace_found _ _ L _ _ E (numberToString_plain l)).
  rewrite append_empty_r. apply replace_absent.
  apply includes_first_char.
  now rewrite includes_char_append, Hp, numberToString_no_brace.
Qed.

(** [p{column}], where [p] holds no brace. *)
Lemma replacePlaceholders_column (p : string) :
  includes (p ++ "{column}") FormatFile = false ->
  includes p "{" = false ->
  subst (p ++ "{column}") = p ++ C.
Proof.
  intros Hfile Hp. unfold replacePlaceholders, toString.
  rewrite (replace_absent _ _ _ Hfile).
  assert (Hl : includes (p ++ "{column}") FormatLine = false).
  { unfold FormatLine. now rewrite (includes_after_clean "{" "line}" p _ Hp). }
  rewrite (replace_absent _ _ _ Hl). unfold FormatColumn.
  pose proof (findFirst_after_clean "{" "column}" p "" Hp) as E.
  rewrite append_empty_r in E.
  rewrite (replace_found _ _ C _ _ E (numberToString_plain c)).
  now rewrite append_empty_r.
Qed.

(** [{file}] *)
Lemma replacePlaceholders_file :
  plainFileName file = true -> subst "{file}" = file.
Proof.
  intros H. destruct (plainFileName_parts H) as (Hd & Hl & Hc).
  now apply replacePlaceholders_file_only.
Qed.

End FamilyTemplates.

(* ================================================================== *)
(** ** Further properties: the argument vector of each family *)
(* ================================================================== *)

Ltac family_cases H :=
  unfold oneOf, basicEditors, vscodeEditors, jetbrainsEditors in H;
  cbn [existsb] in H;
  repeat (apply orb_true_iff in H; destruct H as [H | H]);
  try discriminate H;
  apply String.eqb_eq in H.

Section Families.

Variable table : Platform -> list (string * list string).
Variable h : Host.
Variable params : GetArgumentsParams.
Variables l c : Z.

Hypothesis Hline : lineNumber params = Num l.
Hypothesis Hcolumn : colNumber params = Num c.
Hypothesis Hformat : pathFormat params = None.
Hypothesis Hfile : plainFileName (fileName params) = true.

Local Abbreviation e :=
  (getEditorBasenameByProcessName table h (processName params)).
Local Abbreviation subst := (replacePlaceholders (fileName params) (Num l) (Num c)).
Local Abbreviation format :=
  (getFormatByEditor
     {| editorBasename := e;
        openWindowParams := Some (arg_openWindowParams params);
        workspace := arg_workspace params |}).

Lemma getArguments_of_list (templates : list string) :
  format = FList templates ->
  getArguments table h params = map subst templates.
Proof.
  intros H. unfold getArguments. rewrite H, Hformat, Hline, Hcolumn.
  reflexivity.
Qed.

Lemma getArguments_of_string (template : string) :
  format = FStr template ->
  truthy template = true ->
  getArguments table h params = [subst template].
Proof.
  intros H Ht. unfold getArguments. rewrite H, Hformat, Hline, Hcolumn.
  simpl. now rewrite Ht.
Qed.

Lemma map_optionalArg (x : option string) :
  (forall w, x = Some w -> placeholderFree w = true) ->
  map subst (optionalArg x) = optionalArg x.
Proof.
  intros H. destruct x as [w |]; [| reflexivity]. simpl.
  destruct (truthy w); [| reflexivity]. simpl.
  now rewrite replacePlaceholders_free by now apply H.
Qed.

Lemma format_vscode :
  oneOf e vscodeEditors = true ->
  format
  = FList (List.app (optionalArg (arg_workspace params))
             ("-g" :: List.app (optionalArg (Some (arg_openWindowParams params)))
                        ["{file}:{line}:{column}"])).
Proof.
  intros H. family_cases H; unfold getFormatByEditor;
    cbn [editorBasename workspace openWindowParams]; rewrite H;
    cbv zeta; simpl oneOf; cbv iota; unfold concat;
    now rewrite app_nil_r.
Qed.

Lemma format_jetbrains :
  oneOf e jetbrainsEditors = true ->
  format
  = FList (List.app (optionalArg (arg_workspace params))
             ["--line"; "{line}"; "{file}"]).
Proof.
  intros H. family_cases H; unfold getFormatByEditor;
    cbn [editorBasename workspace openWindowParams]; rewrite H;
    cbv zeta; simpl oneOf; cbv iota; unfold concat;
    now rewrite app_nil_r.
Qed.

Lemma getArguments_vscode_helper :
  oneOf e vscodeEditors = true ->
  (forall w, arg_workspace params = Some w -> placeholderFree w = true) ->
  placeholderFree (arg_openWindowParams params) = true ->
  getArguments table h params
  = List.app (optionalArg (arg_workspace params))
      ("-g" :: List.app (optionalArg (Some (arg_openWindowParams params)))
                 [position (fileName params) l c]).
Proof.
  intros He Hw Ho.
  rewrite (getArguments_of_list _ (format_vscode He)).
  rewrite map_app, (map_optionalArg _ Hw). cbn [map].
  rewrite map_app, map_optionalArg
    by (intros w E; now injection E as <-).
  cbn [map].
  rewrite (replacePlaceholders_free _ _ _ "-g" eq_refl).
  now rewrite replacePlaceholders_position.
Qed.

(** X2. For an editor of the VS Code family, a request without format
    override, a numeric line and column and a plain file name, the
    arguments are, in this order: the workspace when there is one, [-g],
    the window flag when there is one, and [file:line:column]. *)
Theorem getArguments_vscode_family :
  oneOf e vscodeEditors = true ->
  (forall w, arg_workspace params = Some w -> placeholderFree w = true) ->
  placeholderFree (arg_openWindowParams params) = true ->
  getArguments table h params
  = List.app (optionalArg (arg_workspace params))
      ("-g" :: List.app (optionalArg (Some (arg_openWindowParams params)))
                 [position (fileName params) l c]).
Proof.
  intros He Hw Ho.
  rewrite (getArguments_of_list _ (format_vscode He)).
  rewrite map_app, (map_optionalArg _ Hw). cbn [map].
  rewrite map_app, map_optionalArg
    by (intros w E; now injection E as <-).
  cbn [map].
  rewrite (replacePlaceholders_free _ _ _ "-g" eq_refl).
  now rewrite replacePlaceholders_position.
Qed.

(** X3. For an IDE of the JetBrains family, under the same conditions,
    the arguments are the workspace when there is one, then [--line],
    the line and the file; the column is not passed. *)
Theorem getArguments_jetbrains_family :
  oneOf e jetbrainsEditors = true ->
  (forall w, arg_workspace params = Some w -> placeholderFree w = true) ->
  getArguments table h params
  = List.app (optionalArg (arg_workspace params))
      ["--line"; numberToString l; fileName params].
Proof.
  intros He Hw.
  rewrite (getArguments_of_list _ (format_jetbrains He)).
  rewrite map_app, (map_optionalArg _ Hw). cbn [map].
  rewrite (replacePlaceholders_free _ _ _ "--line" eq_refl).
  pose proof (replacePlaceholders_line (fileName params) l c ""
                eq_refl eq_refl) as E;
    cbn [append] in E; rewrite E; clear E.
  now rewrite replacePlaceholders_file.
Qed.

(** X4. For the editors that take a position ([atom], [subl], [zed] and
    the like), under the same conditions, the single argument is
    [file:line:column]. *)
Theorem getArguments_position_family :
  oneOf e basicEditors = true ->
  getArguments table h params = [position (fileName params) l c].
Proof.
  intros He.
  assert (F : format = FStr "{file}:{line}:{column}").
  { family_cases He; unfold getFormatByEditor; cbn [editorBasename];
      rewrite He; reflexivity. }
  rewrite (getArguments_of_string _ F eq_refl).
  now rewrite replacePlaceholders_position.
Qed.

(** X5. For the editors that take flags, under the same conditions:
    Notepad++ gets [-nLINE -cCOLUMN file]; [vim] and [mvim] get the
    cursor command and the file; [joe] and [gvim] get [+LINE file];
    [emacs] and [emacsclient] get [+LINE:COLUMN file]; [rmate], [mate]
    and [mine] get [--line LINE file]. *)
Theorem getArguments_flag_families :
  (oneOf e ["notepad++"] = true ->
   getArguments table h params
   = ["-n" ++ numberToString l; "-c" ++ numberToString c; fileName params])
  /\ (oneOf e ["vim"; "mvim"] = true ->
      getArguments table h params
      = ["+call cursor(" ++ numberToString l ++ ", " ++ numberToString c ++ ")";
         fileName params])
  /\ (oneOf e ["joe"; "gvim"] = true ->
      getArguments table h params
      = ["+" ++ numberToString l; fileName params])
  /\ (oneOf e ["emacs"; "emacsclient"] = true ->
      getArguments table h params
      = ["+" ++ numberToString l ++ ":" ++ numberToString c; fileName params])
  /\ (oneOf e ["rmate"; "mate"; "mine"] = true ->
      getArguments table h params
      = ["--line"; numberToString l; fileName params]).
Proof.
  repeat split; intros He.
  - assert (F : format = FList ["-n{line}"; "-c{column}"; "{file}"]).
    { family_cases He; unfold getFormatByEditor; cbn [editorBasename];
        rewrite He; reflexivity. }
    rewrite (getArguments_of_list _ F). cbn [map].
    pose proof (replacePlaceholders_line (fileName params) l c "-n" eq_refl eq_refl) as E1;
      cbn [append] in E1; rewrite E1; clear E1.
    pose proof (replacePlaceholders_column (fileName params) l c "-c" eq_refl eq_refl) as E2;
      cbn [append] in E2; rewrite E2; clear E2.
    now rewrite replacePlaceholders_file.
  - assert (F : format = FList ["+call cursor({line}, {column})"; "{file}"]).
    { family_cases He; unfold getFormatByEditor; cbn [editorBasename];
        rewrite He; reflexivity. }
    rewrite (getArguments_of_list _ F). cbn [map].
    pose proof (replacePlaceholders_line_column (fileName params) l c
               "+call cursor(" ", " ")" eq_refl eq_refl eq_refl) as E3;
      cbn [append] in E3; rewrite E3; clear E3.
    now rewrite replacePlaceholders_file.
  - assert (F : format = FList ["+{line}"; "{file}"]).
    { family_cases He; unfold getFormatByEditor; cbn [editorBasename];
        rewrite He; reflexivity. }
    rewrite (getArguments_of_list _ F). cbn [map].
    pose proof (replacePlaceholders_line (fileName params) l c "+" eq_refl eq_refl) as E4;
      cbn [append] in E4; rewrite E4; clear E4.
    now rewrite replacePlaceholders_file.
  - assert (F : format = FList ["+{line}:{column}"; "{file}"]).
    { family_cases He; unfold getFormatByEditor; cbn [editorBasename];
        rewrite He; reflexivity. }
    rewrite (getArguments_of_list _ F). cbn [map].
    pose proof (replacePlaceholders_line_column (fileName params) l c
               "+" ":" "" eq_refl eq_refl eq_refl) as E5;
      cbn [append] in E5; rewrite E5; clear E5.
    rewrite replacePlaceholders_file by exact Hfile.
    now rewrite append_empty_r.
  - assert (F : format = FList ["--line"; "{line}"; "{file}"]).
    { family_cases He; unfold getFormatByEditor; cbn [editorBasename];
        rewrite He; reflexivity. }
    rewrite (getArguments_of_list _ F). cbn [map].
    rewrite (replacePlaceholders_free _ _ _ "--line" eq_refl).
    pose proof (replacePlaceholders_line (fileName params) l c "" eq_refl eq_refl) as E6;
      cbn [append] in E6; rewrite E6; clear E6.
    now rewrite replacePlaceholders_file.
Qed.

End Families.

(* ================================================================== *)
(** ** Further properties: editor resolution *)
(* ================================================================== *)

Section ScanFacts.

Variable processMap : Platform -> list (string * list string).
Variable editorsMap : Platform -> list (string * string).
Variable h : Host.
Variable customEditors : option (list string).
Variable output : string.
Variable runningProcesses : list string.

Local Abbreviation scan :=
  (scanEditors h customEditors output runningProcesses).
Local Abbreviation running := (runningEditors h output runningProcesses).

Lemma runningEditors_cons (editorName processName : string)
    (rest : list (string * string)) :
  running ((editorName, processName) :: rest)
  = let found :=
      detectEditor h output runningProcesses editorName processName in
    if truthy (fst found) && truthy (snd found)
    then found :: running rest
    else running rest.
Proof. reflexivity. Qed.

Lemma scanEditors_from (entries : list (string * string))
    (first : option string) :
  scan entries first
  = match find (isPreferred customEditors) (running entries) with
    | Some found => Some (snd found)
    | None =>
        match first with
        | Some f => Some f
        | None => option_map snd (hd_error (running entries))
        end
    end.
Proof.
  revert first. induction entries as [| [editorName processName] rest IH];
    intros first.
  - simpl. now destruct first.
  - rewrite runningEditors_cons. cbn [scanEditors].
    destruct (detectEditor h output runningProcesses editorName processName)
      as [runningEditor editor] eqn:D.
    cbv zeta. cbn [fst snd].
    destruct (truthy runningEditor && truthy editor); [| apply IH].
    cbn [find].
    change (match customEditors with
            | Some l => existsb (String.eqb runningEditor) l
            | None => false
            end)
      with (isPreferred customEditors (runningEditor, editor)).
    destruct (isPreferred customEditors (runningEditor, editor));
      [reflexivity |].
    rewrite IH. destruct (find _ _); [reflexivity |].
    now destruct first.
Qed.

(** X9. Among the editors seen running, in the order of the table, the
    loop returns the first one the configuration names and, when it
    names none of them, the first one. *)
Theorem scanEditors_preference (entries : list (string * string)) :
  scan entries None
  = match find (isPreferred customEditors) (running entries) with
    | Some found => Some (snd found)
    | None => option_map snd (hd_error (running entries))
    end.
Proof.
  enough (G : forall first,
             scan entries first
             = match find (isPreferred customEditors) (running entries) with
               | Some found => Some (snd found)
               | None =>
                   match first with
                   | Some f => Some f
                   | None => option_map snd (hd_error (running entries))
                   end
               end) by apply G.
  induction entries as [| [editorName processName] rest IH]; intros first.
  - simpl. now destruct first.
  - rewrite runningEditors_cons. cbn [scanEditors].
    destruct (detectEditor h output runningProcesses editorName processName)
      as [runningEditor editor].
    cbv zeta. cbn [fst snd].
    destruct (truthy runningEditor && truthy editor); [| apply IH].
    cbn [find].
    change (match customEditors with
            | Some l => existsb (String.eqb runningEditor) l
            | None => false
            end)
      with (isPreferred customEditors (runningEditor, editor)).
    destruct (isPreferred customEditors (runningEditor, editor));
      [reflexivity |].
    rewrite IH. destruct (find _ _); [reflexivity |].
    now destruct first.
Qed.

Lemma running_truthy (entries : list (string * string))
    (found : string * string) :
  In found (running entries) ->
  truthy (fst found) = true /\ truthy (snd found) = true
  /\ exists editorName processName,
       In (editorName, processName) entries
       /\ detectEditor h output runningProcesses editorName processName = found.
Proof.
  unfold runningEditors. intros H. apply filter_In in H as [Hin Ht].
  apply andb_true_iff in Ht as [Hr He]. repeat split; try assumption.
  apply in_map_iff in Hin as ([n v] & Hd & Hentry).
  now exists n, v.
Qed.

Lemma scanEditors_found (entries : list (string * string)) (e : string) :
  scan entries None = Some e ->
  exists found, In found (running entries) /\ snd found = e.
Proof.
  rewrite scanEditors_from.
  destruct (find (isPreferred customEditors) (running entries))
    as [found |] eqn:F.
  - intros H. injection H as <-. exists found. split; [| reflexivity].
    now apply find_some in F.
  - destruct (running entries) as [| found rest]; [discriminate |].
    simpl. intros H. injection H as <-. exists found.
    split; [now left | reflexivity].
Qed.

(** X10. What the loop returns was seen running: on win32 a listed
    process path whose base name is a key of the table; on linux the
    command the table gives for a key that occurs in the listing; on
    darwin a command derived from the table for a key that ends a listed
    process path. *)
Theorem scanEditors_sound (entries : list (string * string)) (e : string) :
  scan entries None = Some e ->
  exists editorName processName,
    In (editorName, processName) entries
    /\ match platform h with
       | win32 =>
           In e runningProcesses
           /\ NodePath.basename win32 e = editorName
       | linux =>
           e = processName /\ includes output editorName = true
       | darwin =>
           exists runningProcess,
             In runningProcess runningProcesses
             /\ endsWith runningProcess editorName = true
             /\ e = (if includes processName "/"
                     then replace runningProcess editorName "" ++ processName
                     else processName)
       end.
Proof.
  intros H. apply scanEditors_found in H as (found & Hin & <-).
  apply running_truthy in Hin as (Hr & He & n & v & Hentry & Hd).
  exists n, v. split; [exact Hentry |].
  unfold detectEditor in Hd. destruct (platform h).
  - destruct (find (fun _process => endsWith _process n) runningProcesses)
      as [p |] eqn:F; [| subst found; discriminate Hr].
    destruct (truthy p); [| subst found; discriminate Hr].
    apply find_some in F as [Hp Hends]. exists p.
    repeat split; try assumption.
    destruct (includes v "/"); subst found; reflexivity.
  - destruct (includes output n); subst found; [| discriminate Hr].
    split; reflexivity.
  - destruct (find (fun _process =>
                      String.eqb (NodePath.basename win32 _process) n)
                runningProcesses) as [p |] eqn:F;
      [| subst found; discriminate Hr].
    destruct (truthy p); [| subst found; discriminate Hr].
    apply find_some in F as [Hp Hbase]. apply String.eqb_eq in Hbase.
    subst found. split; assumption.
Qed.

End ScanFacts.

Section GuessFacts.

Variable processMap : Platform -> list (string * list string).
Variable editorsMap : Platform -> list (string * string).

Local Abbreviation guess := (guessEditor processMap editorsMap).

Lemma whenTruthy_truthy (v : option string) (s : string) :
  whenTruthy v = Some s -> truthy s = true.
Proof.
  destruct v as [t |]; simpl; [| discriminate].
  destruct (truthy t) eqn:E; [| discriminate].
  intros H. now injection H as <-.
Qed.

Lemma configuredEditor_truthy (h : Host) (v : option string) (name : string) :
  configuredEditor processMap h v = Return name -> truthy name = true.
Proof.
  unfold configuredEditor.
  destruct (whenTruthy v) as [n |] eqn:E; [| discriminate].
  destruct (getEditorByCustom processMap h n); [discriminate |].
  intros H. injection H as <-. now apply whenTruthy_truthy in E.
Qed.

Lemma scanOutput_truthy (h : Host) (custom : option CustomEditors)
    (output e : string) :
  scanOutput editorsMap h custom output = Some e -> truthy e = true.
Proof.
  unfold scanOutput. intros H.
  destruct custom as [[paths |] |]; [| discriminate H |];
    apply scanEditors_found in H as (found & Hin & <-);
    now apply running_truthy in Hin as (_ & He & _).
Qed.

Lemma detectRunningEditor_truthy (h : Host) (custom : option CustomEditors)
    (e : string) :
  fst (detectRunningEditor editorsMap h custom) = Some e -> truthy e = true.
Proof.
  unfold detectRunningEditor.
  destruct (execSync h (ProcessExecutionMap (platform h))) as [output |].
  - apply scanOutput_truthy.
  - destruct (Platform_eqb (platform h) win32).
    + destruct (execSync h winExecBackup) as [output |];
        [apply scanOutput_truthy | discriminate].
    + apply scanOutput_truthy.
Qed.

Lemma guessEditor_truthy (h : Host) (_editor : option string) (e : string) :
  fst (guess h _editor) = Some e -> truthy e = true.
Proof.
  unfold guessEditor.
  destruct (configuredEditor processMap h (env_CODE_EDITOR h))
    as [name | c] eqn:E1.
  { simpl. intros H. injection H as <-.
    now apply configuredEditor_truthy in E1. }
  match goal with
  | |- context [match ?s with Return _ => _ | Continue _ => _ end] =>
      destruct s as [name | c'] eqn:E2
  end.
  { simpl. intros H. injection H as <-.
    destruct (dotEnvLocal h) as [d |]; [| discriminate E2].
    destruct c; [discriminate E2 |].
    now apply configuredEditor_truthy in E2. }
  match goal with
  | |- context [detectRunningEditor editorsMap h ?c] =>
      pose proof (detectRunningEditor_truthy h c) as Hd;
      destruct (detectRunningEditor editorsMap h c) as [found events]
  end.
  simpl in Hd. destruct found as [f |].
  - simpl. intros H. injection H as <-. now apply Hd.
  - destruct (whenTruthy (env_VISUAL h)) as [v |] eqn:V; simpl.
    + intros H. injection H as <-. now apply whenTruthy_truthy in V.
    + apply whenTruthy_truthy.
Qed.

(** X11. The editor that resolution returns is never the empty string:
    every value it takes from the environment, from [.env.local] or from
    the process listing is tested for truth before it is returned. *)
Theorem guessEditor_never_empty (h : Host) (_editor : option string)
    (e : string) (events : list Event) :
  guess h _editor = (Some e, events) -> truthy e = true.
Proof.
  unfold guessEditor.
  destruct (configuredEditor processMap h (env_CODE_EDITOR h))
    as [name | c] eqn:E1.
  { intros H. injection H as <- _.
    now apply configuredEditor_truthy in E1. }
  match goal with
  | |- context [match ?s with Return _ => _ | Continue _ => _ end] =>
      destruct s as [name | c'] eqn:E2
  end.
  { intros H. injection H as <- _.
    destruct (dotEnvLocal h) as [d |]; [| discriminate E2].
    destruct c; [discriminate E2 |].
    now apply configuredEditor_truthy in E2. }
  match goal with
  | |- context [detectRunningEditor editorsMap h ?c] =>
      pose proof (detectRunningEditor_truthy h c) as Hd;
      destruct (detectRunningEditor editorsMap h c) as [found listed]
  end.
  simpl in Hd. destruct found as [f |].
  - intros H. injection H as <- _. now apply Hd.
  - destruct (whenTruthy (env_VISUAL h)) as [v |] eqn:V.
    + intros H. injection H as <- _. now apply whenTruthy_truthy in V.
    + intros H. injection H as H _. now apply whenTruthy_truthy in H.
Qed.

(** With an empty listing no editor is seen running. *)
Lemma detectEditor_empty_listing (h : Host) (editorName processName : string) :
  truthy (fst (detectEditor h "" [""] editorName processName)) = false.
Proof.
  unfold detectEditor. destruct (platform h).
  - cbn [find]. destruct (endsWith "" editorName); reflexivity.
  - destruct editorName; reflexivity.
  - cbn [find].
    destruct (String.eqb (NodePath.basename win32 "") editorName); reflexivity.
Qed.

Lemma scanEditors_empty_listing (h : Host) (custom : option (list string))
    (entries : list (string * string)) :
  scanEditors h custom "" [""] entries None = None.
Proof.
  induction entries as [| [n v] rest IH]; [reflexivity |].
  cbn [scanEditors].
  pose proof (detectEditor_empty_listing h n v) as H.
  destruct (detectEditor h "" [""] n v) as [r e]. simpl in H.
  now rewrite H.
Qed.

Lemma scanOutput_empty_listing (h : Host) (custom : option CustomEditors) :
  scanOutput editorsMap h custom "" = None.
Proof.
  unfold scanOutput.
  destruct custom as [[paths |] |]; [| reflexivity |];
    destruct (Platform_eqb (platform h) win32);
    apply scanEditors_empty_listing.
Qed.

Lemma configuredEditor_known (h : Host) (v : option string) :
  knownOrUnset processMap h v = true ->
  exists c, configuredEditor processMap h v = Continue c.
Proof.
  unfold knownOrUnset, configuredEditor.
  destruct (whenTruthy v) as [n |]; [| now exists None].
  destruct (getEditorByCustom processMap h n) as [paths |];
    [now exists (Some paths) | discriminate].
Qed.

(** X12. When the commands that list the processes fail and the
    configuration names no editor outside the table, resolution returns
    [VISUAL], else [EDITOR], else nothing, whatever editor the
    configuration or the caller names: a known editor is only a
    preference among the running ones. *)
Theorem guessEditor_listing_fails (h : Host) (_editor : option string) :
  (forall command, execSync h command = None) ->
  knownOrUnset processMap h (env_CODE_EDITOR h) = true ->
  (forall envConfig,
      dotEnvLocal h = Some envConfig ->
      knownOrUnset processMap h (local_CODE_EDITOR envConfig) = true) ->
  fst (guess h _editor) = environmentFallback h.
Proof.
  intros Hexec Henv Hlocal. unfold guessEditor.
  destruct (configuredEditor_known h _ Henv) as [c1 E1]. rewrite E1.
  assert (E2 : exists c2,
             match dotEnvLocal h, c1 with
             | Some envConfig, None =>
                 configuredEditor processMap h (local_CODE_EDITOR envConfig)
             | _, _ => Continue c1
             end = Continue c2).
  { destruct (dotEnvLocal h) as [d |]; [| now exists c1].
    destruct c1; [now eexists |].
    now apply configuredEditor_known, Hlocal. }
  destruct E2 as [c2 E2]. rewrite E2.
  match goal with
  | |- context [detectRunningEditor editorsMap h ?c] =>
      assert (D : fst (detectRunningEditor editorsMap h c) = None)
  end.
  { unfold detectRunningEditor. rewrite !Hexec.
    destruct (Platform_eqb (platform h) win32); [reflexivity |].
    apply scanOutput_empty_listing. }
  match goal with
  | |- context [detectRunningEditor editorsMap h ?c] =>
      destruct (detectRunningEditor editorsMap h c) as [found events]
  end.
  simpl in D. subst found. unfold environmentFallback.
  now destruct (whenTruthy (env_VISUAL h)).
Qed.

Lemma scanEditors_setDotEnvLocal (h : Host) (d : option DotEnv)
    (custom : option (list string)) (output : string)
    (runningProcesses : list string) (entries : list (string * string))
    (first : option string) :
  scanEditors (setDotEnvLocal h d) custom output runningProcesses entries first
  = scanEditors h custom output runningProcesses entries first.
Proof.
  revert first. induction entries as [| [n v] rest IH]; intros first;
    [reflexivity |].
  cbn [scanEditors].
  change (detectEditor (setDotEnvLocal h d) output runningProcesses n v)
    with (detectEditor h output runningProcesses n v).
  destruct (detectEditor h output runningProcesses n v) as [r e].
  now rewrite !IH.
Qed.

Lemma detectRunningEditor_setDotEnvLocal (h : Host) (d : option DotEnv)
    (custom : option CustomEditors) :
  detectRunningEditor editorsMap (setDotEnvLocal h d) custom
  = detectRunningEditor editorsMap h custom.
Proof.
  unfold detectRunningEditor, scanOutput.
  cbn [setDotEnvLocal platform execSync].
  destruct custom as [[paths |] |];
    destruct (execSync h (ProcessExecutionMap (platform h)));
    destruct (Platform_eqb (platform h) win32);
    try destruct (execSync h winExecBackup);
    now rewrite ?scanEditors_setDotEnvLocal.
Qed.

(** X13. An editor named by the environment variable [CODE_EDITOR]
    settles the configuration: neither [.env.local] nor the editor the
    caller names changes what resolution returns or runs. *)
Theorem guessEditor_environment_first (h : Host) (name : string)
    (envConfig : option DotEnv) (_editor _editor' : option string) :
  whenTruthy (env_CODE_EDITOR h) = Some name ->
  guess (setDotEnvLocal h envConfig) _editor' = guess h _editor.
Proof.
  intros Henv. unfold guessEditor, configuredEditor.
  cbn [setDotEnvLocal env_CODE_EDITOR dotEnvLocal env_VISUAL env_EDITOR].
  rewrite Henv.
  change (getEditorByCustom processMap (setDotEnvLocal h envConfig) name)
    with (getEditorByCustom processMap h name).
  destruct (getEditorByCustom processMap h name) as [paths |];
    [| reflexivity].
  destruct envConfig, (dotEnvLocal h), (whenTruthy _editor),
    (whenTruthy _editor'); cbv iota beta;
    now rewrite detectRunningEditor_setDotEnvLocal.
Qed.

Lemma detectRunningEditor_commands (h : Host) (custom : option CustomEditors) :
  snd (detectRunningEditor editorsMap h custom) = listingCommands h.
Proof.
  unfold detectRunningEditor, listingCommands.
  destruct (platform h); cbn [Platform_eqb];
    destruct (execSync h _); try reflexivity.
  destruct (execSync h winExecBackup); reflexivity.
Qed.

(** X14. When the configuration names an editor outside the table,
    resolution returns it and runs no command. In every other case it
    lists the processes: off win32 it runs the listing command of the
    platform and nothing else; on win32 it first changes the code page,
    and it runs the backup listing exactly when the first listing
    fails. *)
Theorem guessEditor_commands (h : Host) (_editor : option string) :
  match configuredLiteral processMap h with
  | Some name => guess h _editor = (Some name, [])
  | None =>
      snd (guess h _editor)
      = match platform h with
        | win32 =>
            ExecSyncCall "chcp 65001"
            :: ExecSyncCall (ProcessExecutionMap win32)
            :: match execSync h (ProcessExecutionMap win32) with
               | Some _ => []
               | None => [ExecSyncCall winExecBackup]
               end
        | p => [ExecSyncCall (ProcessExecutionMap p)]
        end
  end.
Proof.
  assert (T : forall custom (o : option string),
             snd (let '(found, events) :=
                    detectRunningEditor editorsMap h custom in
                  match found with
                  | Some editor => (Some editor, events)
                  | None =>
                      match whenTruthy (env_VISUAL h) with
                      | Some visual => (Some visual, events)
                      | None => (o, events)
                      end
                  end)
             = listingCommands h).
  { intros custom o.
    pose proof (detectRunningEditor_commands h custom) as E.
    destruct (detectRunningEditor editorsMap h custom) as [found events].
    cbn [snd] in E. destruct found; [exact E |].
    now destruct (whenTruthy (env_VISUAL h)). }
  change (match platform h with
          | win32 =>
              ExecSyncCall "chcp 65001"
              :: ExecSyncCall (ProcessExecutionMap win32)
              :: match execSync h (ProcessExecutionMap win32) with
                 | Some _ => []
                 | None => [ExecSyncCall winExecBackup]
                 end
          | p => [ExecSyncCall (ProcessExecutionMap p)]
          end) with (listingCommands h).
  unfold configuredLiteral, guessEditor, configuredEditor.
  destruct (whenTruthy (env_CODE_EDITOR h)) as [name |].
  - destruct (getEditorByCustom processMap h name) as [c |]; [| reflexivity].
    destruct (dotEnvLocal h); apply T.
  - destruct (dotEnvLocal h) as [envConfig |]; [| apply T].
    destruct (whenTruthy (local_CODE_EDITOR envConfig)) as [name |];
      [| apply T].
    destruct (getEditorByCustom processMap h name) as [c |];
      [apply T | reflexivity].
Qed.

End GuessFacts.

(* ================================================================== *)
(** ** Further properties: normalization of the editor name *)
(* ================================================================== *)

Section SuffixFacts.

Lemma endsWith_append (a b : string) : endsWith (a ++ b) b = true.
Proof.
  induction a as [| c a IH].
  - destruct b; simpl; rewrite ?Ascii.eqb_refl, ?String.eqb_refl; reflexivity.
  - simpl append. cbn [endsWith]. rewrite IH. apply orb_true_r.
Qed.

Lemma endsWith_suffix (s suf : string) :
  endsWith s suf = true -> exists p, s = p ++ suf.
Proof.
  induction s as [| c s IH]; cbn [endsWith]; intros H.
  - rewrite orb_false_r in H. apply String.eqb_eq in H. now exists "".
  - apply orb_true_iff in H as [H | H].
    + apply String.eqb_eq in H. now exists "".
    + destruct (IH H) as [p ->]. now exists (String c p).
Qed.

Lemma chars_append (a b : string) :
  chars (a ++ b) = (chars a ++ chars b)%list.
Proof.
  induction a as [| c a IH]; simpl; [reflexivity | now rewrite IH].
Qed.

Lemma toLowerCase_append (a b : string) :
  toLowerCase (a ++ b) = toLowerCase a ++ toLowerCase b.
Proof.
  induction a as [| c a IH]; simpl; [reflexivity | now rewrite IH].
Qed.

Lemma toLowerCase_length (s : string) :
  String.length (toLowerCase s) = String.length s.
Proof.
  induction s as [| c s IH]; simpl; [reflexivity | now rewrite IH].
Qed.

Lemma string_length_append (a b : string) :
  String.length (a ++ b) = String.length a + String.length b.
Proof.
  induction a as [| c a IH]; simpl; [reflexivity | now rewrite IH].
Qed.

Lemma substring_prefix (a b : string) :
  substring 0 (String.length a) (a ++ b) = a.
Proof.
  induction a as [| c a IH]; simpl.
  - now destruct b.
  - now rewrite IH.
Qed.

Lemma dropLast_append (a b : string) :
  dropLast (String.length b) (a ++ b) = a.
Proof.
  unfold dropLast. rewrite string_length_append.
  replace (String.length a + String.length b - String.length b)
    with (String.length a) by lia.
  apply substring_prefix.
Qed.

(** Two texts with different last characters are not the same. *)
Lemma different_endings (a b x y : string) (c d : ascii) :
  c <> d -> a ++ x ++ String c "" <> b ++ y ++ String d "".
Proof.
  intros Hcd H.
  apply (f_equal (fun s => rev (chars s))) in H.
  rewrite !chars_append, !rev_app_distr in H. simpl in H.
  injection H as H _. contradiction.
Qed.

Lemma not_endsWith (a : string) (x y : string) (c d : ascii) :
  c <> d -> endsWith (a ++ x ++ String c "") (y ++ String d "") = false.
Proof.
  intros Hcd. destruct (endsWith _ _) eqn:E; [| reflexivity].
  apply endsWith_suffix in E as [p E]. exfalso.
  now apply (different_endings a p x y c d).
Qed.

(** The extension of an executable, in any letter case, is stripped. *)
Lemma stripExecutableExtension_append (name ext : string) :
  In (toLowerCase ext) executableExtensions ->
  stripExecutableExtension (name ++ ext) = name.
Proof.
  unfold executableExtensions, stripExecutableExtension, hasExtension.
  intros H. rewrite toLowerCase_append.
  pose proof (toLowerCase_length ext) as Hlen.
  pose proof (endsWith_append (toLowerCase name) (toLowerCase ext)) as Hends.
  simpl in H. destruct H as [H | [H | [H | [H | []]]]];
    rewrite <- H in *; simpl in Hlen.
  - rewrite Hends. cbn [orb]. rewrite Hlen. apply dropLast_append.
  - rewrite Hends, orb_true_r. cbn [orb]. rewrite Hlen.
    apply dropLast_append.
  - rewrite Hends, orb_true_r. rewrite Hlen. apply dropLast_append.
  - pose proof (not_endsWith (toLowerCase name) ".s" ".ex" "h" "e") as N1.
    pose proof (not_endsWith (toLowerCase name) ".s" ".cm" "h" "d") as N2.
    pose proof (not_endsWith (toLowerCase name) ".s" ".ba" "h" "t") as N3.
    cbn [append] in N1, N2, N3.
    rewrite N1, N2, N3 by discriminate.
    cbn [orb]. rewrite Hends, Hlen. apply dropLast_append.
Qed.

End SuffixFacts.

Section ComponentFacts.

Import NodePath.

Lemma takeWhile_app_stop {A} (f : A -> bool) (a b : list A) (x : A) :
  forallb f a = true -> f x = false -> takeWhile f (a ++ x :: b)%list = a.
Proof.
  intros Ha Hx. induction a as [| y a IH]; simpl.
  - now rewrite Hx.
  - simpl in Ha. apply andb_true_iff in Ha as [Hy Ha].
    now rewrite Hy, IH.
Qed.

Lemma dropWhile_app_keep {A} (f : A -> bool) (a b : list A) :
  forallb (fun x => negb (f x)) a = true -> a <> [] ->
  dropWhile f (a ++ b)%list = (a ++ b)%list.
Proof.
  intros Ha Hne. destruct a as [| y a]; [contradiction |].
  simpl in *. apply andb_true_iff in Ha as [Hy _].
  apply negb_true_iff in Hy. now rewrite Hy.
Qed.

(** The last component of a path that ends in a separator and a
    non-empty component without separator is that component. *)
Lemma lastComponent_directory (isSep : ascii -> bool)
    (dir base : list ascii) (sep : ascii) :
  isSep sep = true ->
  forallb (fun c => negb (isSep c)) base = true ->
  base <> [] ->
  lastComponent isSep (dir ++ sep :: base)%list = base.
Proof.
  intros Hsep Hbase Hne. unfold lastComponent.
  rewrite rev_app_distr. simpl rev. rewrite <- app_assoc. simpl app.
  assert (Hrev : forallb (fun c => negb (isSep c)) (rev base) = true)
    by now rewrite forallb_rev.
  rewrite dropWhile_app_keep; try assumption.
  - rewrite takeWhile_app_stop; try assumption.
    + apply rev_involutive.
    + now rewrite Hsep.
  - intros E. apply Hne. rewrite <- (rev_involutive base), E. reflexivity.
Qed.

Lemma skipDrive_directory (dir base : list ascii) (sep : ascii) :
  isWin32Separator sep = true ->
  exists dir', skipDrive (dir ++ sep :: base)%list = (dir' ++ sep :: base)%list.
Proof.
  intros Hsep. destruct dir as [| d [| c dir]].
  - exists []. simpl. destruct base; [reflexivity |].
    replace (isWindowsDeviceRoot sep) with false; [reflexivity |].
    unfold isWin32Separator in Hsep.
    apply orb_true_iff in Hsep as [H | H]; apply Ascii.eqb_eq in H;
      subst sep; reflexivity.
  - exists [d]. simpl.
    replace (Ascii.eqb sep ":") with false;
      [now rewrite andb_false_r |].
    unfold isWin32Separator in Hsep.
    apply orb_true_iff in Hsep as [H | H]; apply Ascii.eqb_eq in H;
      subst sep; reflexivity.
  - simpl. destruct (isWindowsDeviceRoot d && Ascii.eqb c ":").
    + now exists dir.
    + now exists (d :: c :: dir).
Qed.

Lemma basename_directory (p : Platform) (dir base : string) (sep : ascii) :
  isSeparator p sep = true ->
  forallb (fun c => negb (isSeparator p c)) (chars base) = true ->
  truthy base = true ->
  basename p (dir ++ String sep base) = base.
Proof.
  intros Hsep Hbase Hne.
  assert (Hl : chars base <> []) by (destruct base; [discriminate | easy]).
  assert (E : chars (dir ++ String sep base)
              = (chars dir ++ sep :: chars base)%list)
    by now rewrite chars_append.
  destruct p; unfold basename; rewrite E.
  - now rewrite lastComponent_directory, ofChars_chars.
  - now rewrite lastComponent_directory, ofChars_chars.
  - destruct (skipDrive_directory (chars dir) (chars base) sep Hsep)
      as [dir' ->].
    now rewrite lastComponent_directory, ofChars_chars.
Qed.

Lemma isSeparator_toLowerChar (p : Platform) (c : ascii) :
  isSeparator p (toLowerChar c) = isSeparator p c.
Proof.
  destruct p; destruct c as [[] [] [] [] [] [] [] []]; reflexivity.
Qed.

Lemma toLowerCase_separators (p : Platform) (s : string) :
  forallb (fun c => negb (isSeparator p c)) (chars (toLowerCase s))
  = forallb (fun c => negb (isSeparator p c)) (chars s).
Proof.
  induction s as [| c s IH]; simpl; [reflexivity |].
  now rewrite isSeparator_toLowerChar, IH.
Qed.

Lemma extension_no_separator (p : Platform) (ext : string) :
  In (toLowerCase ext) executableExtensions ->
  forallb (fun c => negb (isSeparator p c)) (chars ext) = true
  /\ truthy ext = true.
Proof.
  intros H. rewrite <- toLowerCase_separators.
  assert (Ht : truthy (toLowerCase ext) = truthy ext) by now destruct ext.
  rewrite <- Ht. unfold executableExtensions in H. simpl in H.
  destruct H as [H | [H | [H | [H | []]]]]; rewrite <- H;
    destruct p; split; reflexivity.
Qed.

End ComponentFacts.

Section NormalizationMore.

Variable table : Platform -> list (string * list string).
Variable h : Host.

Local Abbreviation normalize := (getEditorBasenameByProcessName table h).

(** X7. The path of an executable is normalized to the name of the
    file, without its directory, without its extension [.exe], [.cmd],
    [.bat] or [.sh] in any letter case, and in lower case, when no entry
    of the table matches the path. *)
Theorem getEditorBasenameByProcessName_executable
    (dir name ext : string) (sep : ascii) :
  isSeparator (platform h) sep = true ->
  forallb (fun c => negb (isSeparator (platform h) c)) (chars name) = true ->
  In (toLowerCase ext) executableExtensions ->
  matchProcessName (dir ++ String sep (name ++ ext)) (table (platform h))
  = None ->
  normalize (dir ++ String sep (name ++ ext)) = toLowerCase name.
Proof.
  intros Hsep Hname Hext Hm.
  destruct (extension_no_separator (platform h) ext Hext) as [Hchars Hne].
  unfold getEditorBasenameByProcessName. rewrite Hm.
  rewrite basename_directory; try assumption.
  - now rewrite stripExecutableExtension_append.
  - now rewrite chars_append, forallb_app, Hname, Hchars.
  - destruct name; [now simpl | reflexivity].
Qed.

Lemma matchProcessName_first (p name : string) (paths : list string)
    (pre post : list (string * list string)) :
  (forall n ps q, In (n, ps) pre -> In q ps -> endsWith p q = false) ->
  existsb (fun q => endsWith p q) paths = true ->
  matchProcessName p (pre ++ (name, paths) :: post)%list = Some name.
Proof.
  intros Hpre Hpaths. induction pre as [| [n ps] pre IH]; simpl.
  - now rewrite Hpaths.
  - assert (E : existsb (fun q => endsWith p q) ps = false).
    { destruct (existsb _ ps) eqn:E; [| reflexivity].
      apply existsb_exists in E as (q & Hq & Hends).
      rewrite (Hpre n ps q) in Hends; [discriminate | now left | assumption]. }
    rewrite E. apply IH. intros n' ps' q Hin. apply (Hpre n' ps' q).
    now right.
Qed.

(** X8. A process name that ends with a process path of the table is
    normalized to the name of the first editor that has such a path, in
    lower case, whatever its own base name is. *)
Theorem getEditorBasenameByProcessName_table_first
    (prefix path name : string) (paths : list string)
    (pre post : list (string * list string)) :
  table (platform h) = (pre ++ (name, paths) :: post)%list ->
  (forall n ps q,
      In (n, ps) pre -> In q ps -> endsWith (prefix ++ path) q = false) ->
  In path paths ->
  normalize (prefix ++ path) = toLowerCase name.
Proof.
  intros Htable Hpre Hpath.
  unfold getEditorBasenameByProcessName. rewrite Htable.
  rewrite (matchProcessName_first (prefix ++ path) name paths pre post Hpre);
    [reflexivity |].
  apply existsb_exists. exists path. split; [assumption |].
  apply endsWith_append.
Qed.

End NormalizationMore.

(* ================================================================== *)
(** ** Further properties: the launch *)
(* ================================================================== *)

Section LaunchMore.

Variable processMap : Platform -> list (string * list string).
Variable editorsMap : Platform -> list (string * string).
Variables red cyan green : string -> string.

Local Abbreviation guess := (guessEditor processMap editorsMap).
Local Abbreviation launch := (launchIDE processMap editorsMap cyan green).

Lemma windowFlag_getOpenWindowParams (m : option string) :
  optionalArg (Some (getOpenWindowParams m)) = windowFlag m
  /\ placeholderFree (getOpenWindowParams m) = true.
Proof.
  unfold getOpenWindowParams, windowFlag. destruct m as [s |].
  - destruct (String.eqb s "reuse"); [split; reflexivity |].
    destruct (String.eqb s "new"); split; reflexivity.
  - split; reflexivity.
Qed.

(** X15. A launch that resolves an editor of the VS Code family for an
    existing file with a plain name, a line other than 0 and no format
    override creates the editor process with the arguments [-g], the
    window flag of the request's method, and [file:line:column], line
    and column being 1 when the request gives none. *)
Theorem launchIDE_vscode (h : Host) (params : LaunchIDEParams)
    (st : LaunchState) (e : string) (guessed : list Event) :
  existsSync h (file params) = true ->
  guess h (editor params) = (Some e, guessed) ->
  String.eqb (toLowerCase e) "none" = false ->
  oneOf (getEditorBasenameByProcessName processMap h e) vscodeEditors = true ->
  getEnvFormatPath h = None ->
  format params = None ->
  lineOrDefault params <> 0%Z ->
  plainFileName (wslFile h (file params)) = true ->
  snd (launch h params st)
  = List.app guessed
      (List.app (killEvents st e)
         [startEvent h e
            ("-g" :: List.app (windowFlag (method params))
                       [position (wslFile h (file params))
                          (lineOrDefault params) (columnOrDefault params)])]).
Proof.
  intros Hfile Hguess Hnone Hfamily Henv Hformat Hline Hplain.
  assert (Htruthy : truthy e = true).
  { apply (guessEditor_truthy processMap editorsMap h (editor params)).
    now rewrite Hguess. }
  rewrite (launchIDE_recognized processMap editorsMap cyan green h params st
             e guessed Hfile Hguess Htruthy Hnone).
  cbn [snd]. do 3 f_equal. unfold launchArgs.
  apply Z.eqb_neq in Hline. rewrite Hline. cbn [negb app].
  rewrite Henv, Hformat. cbn [orOptionalFormat].
  destruct (windowFlag_getOpenWindowParams (method params)) as [Hflag Hfree].
  rewrite (getArguments_vscode_helper processMap h
             {| processName := e;
                fileName := wslFile h (file params);
                lineNumber := Num (lineOrDefault params);
                colNumber := Num (columnOrDefault params);
                arg_workspace := None;
                arg_openWindowParams := getOpenWindowParams (method params);
                pathFormat := None |}
             (lineOrDefault params) (columnOrDefault params)
             eq_refl eq_refl eq_refl Hplain Hfamily);
    cbn [arg_workspace arg_openWindowParams fileName].
  - now rewrite Hflag.
  - discriminate.
  - exact Hfree.
Qed.

(** X16. For a request with a line other than 0, a format given by the
    environment variable [CODE_INSPECTOR_FORMAT_PATH] is the format of
    the launch: the arguments are the substitution into it, whatever
    format the request carries and whatever the editor's own rule is.
    For the line 0 no format is used, this one no more than another: the
    argument list is the file alone. *)
Theorem launchIDE_environment_format (h : Host) (params : LaunchIDEParams)
    (st : LaunchState) (e text : string) (guessed : list Event)
    (envFormat : Format) :
  existsSync h (file params) = true ->
  guess h (editor params) = (Some e, guessed) ->
  String.eqb (toLowerCase e) "none" = false ->
  whenTruthy (env_CODE_INSPECTOR_FORMAT_PATH h) = Some text ->
  JSON_parse h text = Some envFormat ->
  Format_truthy envFormat = true ->
  snd (launch h params st)
  = List.app guessed
      (List.app (killEvents st e)
         [startEvent h e
            (if (lineOrDefault params =? 0)%Z
             then [wslFile h (file params)]
             else formatOpenPath (wslFile h (file params))
                    (Num (lineOrDefault params))
                    (Num (columnOrDefault params)) envFormat)]).
Proof.
  intros Hfile Hguess Hnone Henv Hparse Htruthy.
  assert (He : truthy e = true).
  { apply (guessEditor_truthy processMap editorsMap h (editor params)).
    now rewrite Hguess. }
  rewrite (launchIDE_recognized processMap editorsMap cyan green h params st
             e guessed Hfile Hguess He Hnone).
  cbn [snd]. do 3 f_equal. unfold launchArgs.
  destruct (lineOrDefault params =? 0)%Z; cbn [negb app]; [reflexivity |].
  unfold getEnvFormatPath. rewrite Henv, Hparse.
  unfold orOptionalFormat. rewrite Htruthy.
  unfold getArguments, orFormat. cbn [pathFormat fileName lineNumber colNumber].
  now rewrite Htruthy.
Qed.

Lemma no_console_among_execSync (events : list Event) :
  forallb isExecSync events = true -> existsb isConsoleLog events = false.
Proof.
  induction events as [| ev events IH]; simpl; [reflexivity |].
  intros H. apply andb_true_iff in H as [Hev Hrest].
  destruct ev; try discriminate Hev. simpl. now apply IH.
Qed.

Lemma report_with_callback (params : LaunchIDEParams) (f message : string)
    (otherwise : list Event) :
  onError params = true ->
  report params f message otherwise = [OnErrorCall f message].
Proof. intros H. unfold report. now rewrite H. Qed.

(** X17. With an [onError] callback nothing is printed: neither the
    launch nor its exit and error handlers write to the console, every
    failure goes to the callback. *)
Theorem onError_silences_console (h : Host) (params : LaunchIDEParams)
    (st : LaunchState) (f message : string) (errorCode : option Z) :
  onError params = true ->
  existsb isConsoleLog (snd (launch h params st)) = false
  /\ existsb isConsoleLog (snd (onExit red cyan green h params f errorCode st))
     = false
  /\ snd (onErrorEvent red cyan green h params f message st)
     = [OnErrorCall f message].
Proof.
  intros Hcb. repeat split.
  - unfold launchIDE.
    destruct (existsSync h (file params)); [| reflexivity]. cbn [negb].
    pose proof (guessEditor_events processMap editorsMap h (editor params))
      as Hev.
    destruct (guess h (editor params)) as [[e |] guessed]; cbn [snd] in Hev.
    + destruct (negb (truthy e) || String.eqb (toLowerCase e) "none");
        cbn [snd]; rewrite ?existsb_app, (no_console_among_execSync _ Hev).
      * unfold unrecognized. now rewrite report_with_callback.
      * unfold killEvents, startEvent.
        destruct (_childProcess st); destruct (isTerminalEditor e);
          destruct (Platform_eqb (platform h) win32); reflexivity.
    + cbn [snd]. rewrite existsb_app, (no_console_among_execSync _ Hev).
      unfold unrecognized. now rewrite report_with_callback.
  - unfold onExit. cbn [snd]. destruct errorCode as [code |]; [| reflexivity].
    destruct (negb (code =? 0)%Z); [| reflexivity].
    now rewrite report_with_callback.
  - unfold onErrorEvent. cbn [snd]. now apply report_with_callback.
Qed.

(** X18. A launch creates at most one process. Either it creates none
    and leaves the tracked process as it was, or the creation is its last
    event and the new process is the tracked one. *)
Theorem launchIDE_one_process (h : Host) (params : LaunchIDEParams)
    (st : LaunchState) :
  (fst (launch h params st) = st
   /\ existsb isStart (snd (launch h params st)) = false)
  \/ (exists before started,
         snd (launch h params st) = List.app before [started]
         /\ isStart started = true
         /\ existsb isStart before = false
         /\ fst (launch h params st)
            = {| _childProcess := Some (created st);
                 created := S (created st) |}).
Proof.
  unfold launchIDE.
  destruct (existsSync h (file params)); [| now left]. cbn [negb].
  pose proof (guessEditor_events processMap editorsMap h (editor params))
    as Hev.
  destruct (guess h (editor params)) as [[e |] guessed]; cbn [snd] in Hev.
  - destruct (negb (truthy e) || String.eqb (toLowerCase e) "none").
    + left. cbn [fst snd]. split; [reflexivity |].
      rewrite existsb_app, (no_start_among_execSync _ Hev).
      apply unrecognized_events.
    + right. cbn [fst snd]. eexists. eexists. rewrite app_assoc.
      split; [reflexivity |]. split; [apply startEvent_isStart |].
      split; [| reflexivity].
      rewrite existsb_app, (no_start_among_execSync _ Hev).
      unfold killEvents.
      destruct (_childProcess st); [destruct (isTerminalEditor e) |];
        reflexivity.
  - left. cbn [fst snd]. split; [reflexivity |].
    rewrite existsb_app, (no_start_among_execSync _ Hev).
    apply unrecognized_events.
Qed.

Lemma launchIDE_nothing_tracked (h : Host) (params : LaunchIDEParams)
    (st : LaunchState) :
  _childProcess st = None ->
  existsb isKill (snd (launch h params st)) = false.
Proof.
  intros Hnone. unfold launchIDE.
  destruct (existsSync h (file params)); [| reflexivity]. cbn [negb].
  pose proof (guessEditor_events processMap editorsMap h (editor params))
    as Hev.
  destruct (guess h (editor params)) as [[e |] guessed]; cbn [snd] in Hev.
  - destruct (negb (truthy e) || String.eqb (toLowerCase e) "none");
      cbn [snd]; rewrite ?existsb_app, (no_kill_among_execSync _ Hev).
    + apply unrecognized_events.
    + unfold killEvents. rewrite Hnone. simpl.
      now rewrite (proj2 (startEvent_isStart _ _ _)).
  - cbn [snd]. rewrite existsb_app, (no_kill_among_execSync _ Hev).
    apply unrecognized_events.
Qed.

(** X19. Once the exit of a process has been handled, whichever process
    it was and whatever its code, nothing is tracked, and the next launch
    sends no signal, even for a terminal editor. *)
Theorem launchIDE_after_exit (h h' : Host) (params params' : LaunchIDEParams)
    (st : LaunchState) (f : string) (errorCode : option Z) :
  _childProcess (fst (onExit red cyan green h params f errorCode st)) = None
  /\ existsb isKill
       (snd (launch h' params'
               (fst (onExit red cyan green h params f errorCode st))))
     = false.
Proof.
  split; [reflexivity |]. now apply launchIDE_nothing_tracked.
Qed.

Lemma isTerminalEditor_names (e : string) :
  isTerminalEditor e = true -> e = "vim" \/ e = "emacs" \/ e = "nano".
Proof.
  unfold isTerminalEditor, oneOf. cbn [existsb]. intros H.
  repeat (apply orb_true_iff in H; destruct H as [H | H]);
    try discriminate H; apply String.eqb_eq in H; auto.
Qed.

(** X20. Only the bare commands [vim], [emacs] and [nano] count as
    terminal editors: when the resolved editor is a path, as a value of
    [VISUAL] like [/usr/bin/vim] is, the launch sends no signal to the
    tracked process. *)
Theorem launchIDE_editor_path_no_kill (h : Host) (params : LaunchIDEParams)
    (st : LaunchState) (e : string) (guessed : list Event) :
  guess h (editor params) = (Some e, guessed) ->
  includes e "/" = true ->
  existsb isKill (snd (launch h params st)) = false.
Proof.
  intros Hguess Hpath.
  assert (Hterm : isTerminalEditor e = false).
  { destruct (isTerminalEditor e) eqn:E; [| reflexivity].
    apply isTerminalEditor_names in E as [-> | [-> | ->]]; discriminate Hpath. }
  unfold launchIDE.
  destruct (existsSync h (file params)); [| reflexivity]. cbn [negb].
  pose proof (guessEditor_events processMap editorsMap h (editor params))
    as Hev.
  rewrite Hguess in *. cbn [snd] in Hev.
  destruct (negb (truthy e) || String.eqb (toLowerCase e) "none");
    cbn [snd]; rewrite ?existsb_app, (no_kill_among_execSync _ Hev).
  - apply unrecognized_events.
  - unfold killEvents. rewrite Hterm.
    destruct (_childProcess st); simpl;
      now rewrite (proj2 (startEvent_isStart _ _ _)).
Qed.

End LaunchMore.

(* ================================================================== *)
(** ** Further properties: substitution, window flag, escaping, advice *)
(* ================================================================== *)

(** X1. For a numeric line and column and a file name without dollar
    sign, [formatOpenPath] is the literal substitution: in each template
    the first occurrence of [{file}], then of [{line}], then of
    [{column}] is replaced by the text itself. *)
Theorem formatOpenPath_numeric_literal (file : string) (l c : Z)
    (format : Format) :
  includes file "$" = false ->
  formatOpenPath file (Num l) (Num c) format
  = formatOpenPathLiteral file (Num l) (Num c) format.
Proof.
  intros Hfile. destruct format as [f | templates | b]; simpl.
  - rewrite replacePlaceholders_literal;
      [reflexivity | assumption | apply numberToString_plain ..].
  - apply map_ext. intros item.
    apply replacePlaceholders_literal;
      [assumption | apply numberToString_plain ..].
  - reflexivity.
Qed.

Section WindowFlag.

Variable processMap : Platform -> list (string * list string).
Variable editorsMap : Platform -> list (string * string).
Variables cyan green : string -> string.

Lemma getFormatByEditor_window_flag (e : string) (o1 o2 w : option string) :
  oneOf e vscodeEditors = false ->
  getFormatByEditor {| editorBasename := e; openWindowParams := o1;
                       workspace := w |}
  = getFormatByEditor {| editorBasename := e; openWindowParams := o2;
                         workspace := w |}.
Proof.
  intros H. unfold getFormatByEditor.
  cbn [editorBasename workspace openWindowParams]. cbv zeta.
  now rewrite H.
Qed.

Lemma getArguments_window_flag (h : Host) (params : GetArgumentsParams)
    (o : string) :
  oneOf (getEditorBasenameByProcessName processMap h (processName params))
    vscodeEditors = false ->
  getArguments processMap h (withOpenWindowParams params o)
  = getArguments processMap h params.
Proof.
  intros H. unfold getArguments.
  cbn [withOpenWindowParams processName fileName lineNumber colNumber
         arg_workspace arg_openWindowParams pathFormat].
  now rewrite (getFormatByEditor_window_flag _ (Some o)
                 (Some (arg_openWindowParams params)) _ H).
Qed.

(** X6. The open method of a request matters to the VS Code family
    only: when the resolved editor is of another family, or of none, the
    launch is the same whatever the method. *)
Theorem launchIDE_method_ignored (h : Host) (params : LaunchIDEParams)
    (st : LaunchState) (m : option string) :
  (forall e,
      fst (guessEditor processMap editorsMap h (editor params)) = Some e ->
      oneOf (getEditorBasenameByProcessName processMap h e) vscodeEditors
      = false) ->
  launchIDE processMap editorsMap cyan green h (withMethod params m) st
  = launchIDE processMap editorsMap cyan green h params st.
Proof.
  intros Hfamily. unfold launchIDE, lineOrDefault, columnOrDefault.
  cbn [withMethod file line column editor format].
  destruct (existsSync h (file params)); [| reflexivity]. cbn [negb].
  destruct (guessEditor processMap editorsMap h (editor params))
    as [[e |] guessed]; [| reflexivity].
  destruct (negb (truthy e) || String.eqb (toLowerCase e) "none");
    [reflexivity |].
  specialize (Hfamily e eq_refl).
  do 4 f_equal. unfold launchArgs. cbn [withMethod method].
  destruct (negb _); [| reflexivity]. cbn [app].
  set (args := {| processName := e;
                  fileName := wslFile h (file params);
                  lineNumber := _; colNumber := _;
                  arg_workspace := None;
                  arg_openWindowParams := getOpenWindowParams (method params);
                  pathFormat := _ |}).
  now rewrite <- (getArguments_window_flag h args (getOpenWindowParams m)
                    Hfamily).
Qed.

End WindowFlag.

Section Escaping.

Lemma caret_metacharacter : isCmdMetacharacter "^" = true.
Proof. reflexivity. Qed.

(** X21. Escaping loses nothing: two arguments with the same escaped
    form are the same argument. *)
Theorem escapeCmdArgs_injective (a b : string) :
  escapeCmdArgs a = escapeCmdArgs b -> a = b.
Proof.
  revert b. induction a as [| c a IH]; intros [| d b] H.
  - reflexivity.
  - simpl in H. destruct (isCmdMetacharacter d); discriminate H.
  - simpl in H. destruct (isCmdMetacharacter c); discriminate H.
  - cbn [escapeCmdArgs] in H.
    destruct (isCmdMetacharacter c) eqn:Hc;
      destruct (isCmdMetacharacter d) eqn:Hd.
    + injection H as <- H. f_equal. now apply IH.
    + injection H as <- _. rewrite caret_metacharacter in Hd. discriminate.
    + injection H as -> _. rewrite caret_metacharacter in Hc. discriminate.
    + injection H as <- H. f_equal. now apply IH.
Qed.

End Escaping.

Section Advice.

Variables red cyan green : string -> string.

Lemma endsWith_dot (s : string) : endsWith (s ++ ".") "." = true.
Proof. apply endsWith_append. Qed.

(** X22. The advice goes to the console only, in two lines when there
    is no error message and in three when there is one. The error
    message is then printed as it is when it ends with a full stop, and
    with a full stop added when it does not: in both cases it ends with
    one. *)
Theorem printInstructions_lines (h : Host) (fileName errorMessage : string) :
  forallb isConsoleLog (printInstructions red cyan green h fileName errorMessage)
  = true
  /\ List.length (printInstructions red cyan green h fileName errorMessage)
     = (if truthy errorMessage then 3 else 2)
  /\ (truthy errorMessage = true ->
      exists message,
        nth_error (printInstructions red cyan green h fileName errorMessage) 1
        = Some (ConsoleLog
                  (red ("The editor process exited with an error: " ++ message)))
        /\ endsWith message "." = true
        /\ (endsWith errorMessage "." = true -> message = errorMessage)
        /\ (endsWith errorMessage "." = false ->
            message = errorMessage ++ ".")).
Proof.
  unfold printInstructions, lastIsDot.
  destruct (truthy errorMessage); cbn [concat app].
  - repeat split; try reflexivity. intros _.
    destruct (endsWith errorMessage ".") eqn:E.
    + exists errorMessage. repeat split;
        [assumption | discriminate].
    + exists (errorMessage ++ "."). repeat split;
        [apply endsWith_dot | discriminate].
  - repeat split; try reflexivity. discriminate.
Qed.

End Advice.

Section Wsl.

Variable processMap : Platform -> list (string * list string).
Variable editorsMap : Platform -> list (string * string).
Variables cyan green : string -> string.

(** Under WSL a file under [/mnt/] is rewritten; off linux no file
    is. *)
Lemma wslFile_rewrite (h : Host) (rest a m b : string) :
  (platform h = linux ->
   os_release h = a ++ m ++ b ->
   toLowerCase m = "microsoft" ->
   wslFile h ("/mnt/" ++ rest) = path_relative_cwd h ("/mnt/" ++ rest))
  /\ (platform h <> linux -> forall f, wslFile h f = f).
Proof.
  unfold wslFile. split.
  - intros Hp Hrelease Hm. rewrite Hp, Hrelease. cbn [Platform_eqb andb].
    unfold startsWith. rewrite (dropPrefix_complete "/mnt/" rest).
    rewrite !toLowerCase_append, Hm.
    replace (includes (toLowerCase a ++ "microsoft" ++ toLowerCase b)
               "microsoft") with true; [reflexivity |].
    symmetry. apply includes_occurrence. now exists (toLowerCase a), (toLowerCase b).
  - intros Hp f. destruct (platform h); try reflexivity. contradiction.
Qed.

(** X23. Under WSL, that is on linux with a release name that holds
    [microsoft] in any letter case, a launch for an existing file under
    [/mnt/] gives the editor the path of the file relative to the
    working directory: that path, not the one of the request, is the
    file name of the argument synthesis, and the sole argument for the
    line 0. On a platform other than linux the path of the request is
    used as it is. *)
Theorem launchIDE_wsl_path (h : Host) (params : LaunchIDEParams)
    (st : LaunchState) (e : string) (guessed : list Event)
    (rest a m b : string) :
  existsSync h (file params) = true ->
  guessEditor processMap editorsMap h (editor params) = (Some e, guessed) ->
  String.eqb (toLowerCase e) "none" = false ->
  let arguments f :=
    if (lineOrDefault params =? 0)%Z then [f]
    else getArguments processMap h
           {| processName := e;
              fileName := f;
              lineNumber := Num (lineOrDefault params);
              colNumber := Num (columnOrDefault params);
              arg_workspace := None;
              arg_openWindowParams := getOpenWindowParams (method params);
              pathFormat :=
                orOptionalFormat (getEnvFormatPath h) (format params) |} in
  (platform h = linux ->
   file params = "/mnt/" ++ rest ->
   os_release h = a ++ m ++ b ->
   toLowerCase m = "microsoft" ->
   snd (launchIDE processMap editorsMap cyan green h params st)
   = List.app guessed
       (List.app (killEvents st e)
          [startEvent h e (arguments (path_relative_cwd h (file params)))]))
  /\ (platform h <> linux ->
      snd (launchIDE processMap editorsMap cyan green h params st)
      = List.app guessed
          (List.app (killEvents st e)
             [startEvent h e (arguments (file params))])).
Proof.
  intros Hfile Hguess Hnone arguments.
  assert (He : truthy e = true).
  { apply (guessEditor_truthy processMap editorsMap h (editor params)).
    now rewrite Hguess. }
  rewrite (launchIDE_recognized processMap editorsMap cyan green h params st
             e guessed Hfile Hguess He Hnone).
  cbn [snd]. unfold launchArgs, arguments.
  split.
  - intros Hp Hmnt Hrelease Hm.
    rewrite Hmnt, (proj1 (wslFile_rewrite h rest a m b) Hp Hrelease Hm).
    now destruct (lineOrDefault params =? 0)%Z.
  - intros Hp. rewrite (proj2 (wslFile_rewrite h rest a m b) Hp).
    now destruct (lineOrDefault params =? 0)%Z.
Qed.

End Wsl.

Lemma launchIDE_wsl_path_witness :
  snd (sampleLaunch wslHost (sampleRequest "/mnt/c/src/a.js" (Some 3%Z) true)
         initialState)
  = [SpawnCall "code.exe" ["-g"; "../../mnt/c/src/a.js:3:1"]]
  /\ snd (sampleLaunch (sampleHost darwin (Some "/usr/local/bin/code") None)
            (sampleRequest "/mnt/c/src/a.js" (Some 3%Z) true) initialState)
     = [SpawnCall "/usr/local/bin/code" ["-g"; "/mnt/c/src/a.js:3:1"]].
Proof.
  split.
  - exact (proj1 (launchIDE_wsl_path sampleProcessMap sampleEditorsMap
                    plain plain wslHost
                    (sampleRequest "/mnt/c/src/a.js" (Some 3%Z) true)
                    initialState "code.exe" [] "c/src/a.js" "4.4.0-43-"
                    "Microsoft" "" eq_refl eq_refl eq_refl)
             eq_refl eq_refl eq_refl eq_refl).
  - refine (proj2 (launchIDE_wsl_path sampleProcessMap sampleEditorsMap
                     plain plain
                     (sampleHost darwin (Some "/usr/local/bin/code") None)
                     (sampleRequest "/mnt/c/src/a.js" (Some 3%Z) true)
                     initialState "/usr/local/bin/code" [] "" "" "" ""
                     eq_refl eq_refl eq_refl) _).
    discriminate.
Defined.

(* ================================================================== *)
(** ** Concrete runs of the further properties *)
(* ================================================================== *)

Lemma formatOpenPath_numeric_literal_witness :
  formatOpenPath "/a/b.js" (Num 10) (Num 5) (FList ["{file}"; "+{line}"])
  = formatOpenPathLiteral "/a/b.js" (Num 10) (Num 5)
      (FList ["{file}"; "+{line}"]).
Proof.
  exact (formatOpenPath_numeric_literal "/a/b.js" 10 5
           (FList ["{file}"; "+{line}"]) eq_refl).
Defined.

Lemma getArguments_vscode_family_witness :
  getArguments sampleProcessMap (sampleHost linux None None)
    (sampleArgumentsIn "/usr/bin/code" "/a/b.js" (Some "/ws") "-r")
  = ["/ws"; "-g"; "-r"; "/a/b.js:10:5"].
Proof.
  refine (getArguments_vscode_family sampleProcessMap
            (sampleHost linux None None)
            (sampleArgumentsIn "/usr/bin/code" "/a/b.js" (Some "/ws") "-r")
            10 5 eq_refl eq_refl eq_refl eq_refl eq_refl _ eq_refl).
  intros w E. injection E as <-. reflexivity.
Defined.

Lemma getArguments_jetbrains_family_witness :
  getArguments sampleProcessMap (sampleHost linux None None)
    (sampleArgumentsIn "/opt/idea/bin/idea.sh" "/a/b.js" None "")
  = ["--line"; "10"; "/a/b.js"].
Proof.
  refine (getArguments_jetbrains_family sampleProcessMap
            (sampleHost linux None None)
            (sampleArgumentsIn "/opt/idea/bin/idea.sh" "/a/b.js" None "")
            10 5 eq_refl eq_refl eq_refl eq_refl eq_refl _).
  intros w E. discriminate E.
Defined.

Lemma getArguments_position_family_witness :
  getArguments sampleProcessMap (sampleHost linux None None)
    (sampleArgumentsIn "subl" "/a/b.js" None "")
  = ["/a/b.js:10:5"].
Proof.
  exact (getArguments_position_family sampleProcessMap
           (sampleHost linux None None)
           (sampleArgumentsIn "subl" "/a/b.js" None "")
           10 5 eq_refl eq_refl eq_refl eq_refl eq_refl).
Defined.

Lemma getArguments_flag_families_witness :
  getArguments sampleProcessMap (sampleHost linux None None)
    (sampleArgumentsIn "/usr/bin/vim" "/a/b.js" None "")
  = ["+call cursor(10, 5)"; "/a/b.js"]
  /\ getArguments sampleProcessMap (sampleHost win32 None None)
       (sampleArgumentsIn "C:\Program Files\Notepad++\notepad++.exe"
          "C:\src\a.js" None "")
     = ["-n10"; "-c5"; "C:\src\a.js"].
Proof.
  split.
  - exact (proj1 (proj2
             (getArguments_flag_families sampleProcessMap
                (sampleHost linux None None)
                (sampleArgumentsIn "/usr/bin/vim" "/a/b.js" None "")
                10 5 eq_refl eq_refl eq_refl eq_refl)) eq_refl).
  - exact (proj1
             (getArguments_flag_families sampleProcessMap
                (sampleHost win32 None None)
                (sampleArgumentsIn "C:\Program Files\Notepad++\notepad++.exe"
                   "C:\src\a.js" None "")
                10 5 eq_refl eq_refl eq_refl eq_refl) eq_refl).
Defined.

Lemma launchIDE_method_ignored_witness :
  sampleLaunch (sampleHost linux (Some "vim") None)
    (withMethod (sampleRequest "/a/b.js" (Some 3%Z) true) (Some "reuse"))
    initialState
  = sampleLaunch (sampleHost linux (Some "vim") None)
      (sampleRequest "/a/b.js" (Some 3%Z) true) initialState.
Proof.
  apply (launchIDE_method_ignored sampleProcessMap sampleEditorsMap plain plain
           (sampleHost linux (Some "vim") None)
           (sampleRequest "/a/b.js" (Some 3%Z) true) initialState
           (Some "reuse")).
  intros e H. vm_compute in H. injection H as <-. reflexivity.
Defined.

Lemma getEditorBasenameByProcessName_executable_witness :
  getEditorBasenameByProcessName sampleProcessMap (sampleHost win32 None None)
    "C:\tools\Idea64.EXE"
  = "idea64".
Proof.
  refine (getEditorBasenameByProcessName_executable sampleProcessMap
            (sampleHost win32 None None) "C:\tools" "Idea64" ".EXE" "\"
            eq_refl eq_refl _ eq_refl).
  left. reflexivity.
Defined.

Lemma getEditorBasenameByProcessName_table_first_witness :
  getEditorBasenameByProcessName sampleProcessMap (sampleHost darwin None None)
    "/Applications/Visual Studio Code.app/Contents/MacOS/Electron"
  = "code".
Proof.
  refine (getEditorBasenameByProcessName_table_first sampleProcessMap
            (sampleHost darwin None None) "/Applications"
            "/Visual Studio Code.app/Contents/MacOS/Electron" "code"
            ["/Visual Studio Code.app/Contents/MacOS/Electron"] [] []
            eq_refl _ _).
  - intros n ps q H. destruct H.
  - left. reflexivity.
Defined.

Lemma scanEditors_sound_witness :
  exists editorName processName,
    In (editorName, processName) [("code", "code"); ("vim", "vim")]
    /\ "vim" = processName
    /\ includes ("bash" ++ LF ++ "vim" ++ LF) editorName = true.
Proof.
  exact (scanEditors_sound (sampleHost linux None None) None
           ("bash" ++ LF ++ "vim" ++ LF) ["bash"; "vim"; ""]
           [("code", "code"); ("vim", "vim")] "vim" eq_refl).
Defined.

Lemma guessEditor_never_empty_witness :
  truthy "/opt/zed/zed" = true.
Proof.
  exact (guessEditor_never_empty sampleProcessMap sampleEditorsMap
           (sampleHost linux (Some "/opt/zed/zed") None) None
           "/opt/zed/zed" [] eq_refl).
Defined.

Lemma guessEditor_listing_fails_witness :
  fst (guessEditor sampleProcessMap sampleEditorsMap
         (sampleHost linux (Some "code") None) (Some "code"))
  = None.
Proof.
  refine (guessEditor_listing_fails sampleProcessMap sampleEditorsMap
            (sampleHost linux (Some "code") None) (Some "code") _ eq_refl _).
  - intros command. reflexivity.
  - intros envConfig H. discriminate H.
Defined.

Lemma guessEditor_environment_first_witness :
  guessEditor sampleProcessMap sampleEditorsMap
    (setDotEnvLocal (sampleHost linux (Some "/opt/zed/zed") None)
       (Some {| local_CODE_EDITOR := Some "vim";
                local_CODE_INSPECTOR_FORMAT_PATH := None |}))
    (Some "code")
  = guessEditor sampleProcessMap sampleEditorsMap
      (sampleHost linux (Some "/opt/zed/zed") None) None.
Proof.
  exact (guessEditor_environment_first sampleProcessMap sampleEditorsMap
           (sampleHost linux (Some "/opt/zed/zed") None) "/opt/zed/zed"
           (Some {| local_CODE_EDITOR := Some "vim";
                    local_CODE_INSPECTOR_FORMAT_PATH := None |})
           None (Some "code") eq_refl).
Defined.

Lemma launchIDE_vscode_witness :
  snd (sampleLaunch (sampleHost linux (Some "/usr/local/bin/code") None)
         (withMethod (sampleRequest "/a/b.js" (Some 7%Z) true) (Some "reuse"))
         initialState)
  = [SpawnCall "/usr/local/bin/code" ["-g"; "-r"; "/a/b.js:7:1"]].
Proof.
  refine (launchIDE_vscode sampleProcessMap sampleEditorsMap plain plain
            (sampleHost linux (Some "/usr/local/bin/code") None)
            (withMethod (sampleRequest "/a/b.js" (Some 7%Z) true)
               (Some "reuse"))
            initialState "/usr/local/bin/code" []
            eq_refl eq_refl eq_refl eq_refl eq_refl eq_refl _ eq_refl).
  discriminate.
Defined.

Lemma launchIDE_environment_format_witness :
  snd (sampleLaunch (formatHost linux "/usr/local/bin/code")
         (withFormat (sampleRequest "/a/b.js" (Some 7%Z) true)
            (Some (FStr "{file}")))
         initialState)
  = [SpawnCall "/usr/local/bin/code" ["/a/b.js"; "--goto"; "7"]]
  /\ snd (sampleLaunch (formatHost linux "/usr/local/bin/code")
            (withFormat (sampleRequest "/a/b.js" (Some 0%Z) true)
               (Some (FStr "{file}")))
            initialState)
     = [SpawnCall "/usr/local/bin/code" ["/a/b.js"]].
Proof.
  split.
  - exact (launchIDE_environment_format sampleProcessMap sampleEditorsMap
             plain plain (formatHost linux "/usr/local/bin/code")
             (withFormat (sampleRequest "/a/b.js" (Some 7%Z) true)
                (Some (FStr "{file}")))
             initialState "/usr/local/bin/code" sampleFormatText []
             (FList ["{file}"; "--goto"; "{line}"])
             eq_refl eq_refl eq_refl eq_refl eq_refl eq_refl).
  - exact (launchIDE_environment_format sampleProcessMap sampleEditorsMap
             plain plain (formatHost linux "/usr/local/bin/code")
             (withFormat (sampleRequest "/a/b.js" (Some 0%Z) true)
                (Some (FStr "{file}")))
             initialState "/usr/local/bin/code" sampleFormatText []
             (FList ["{file}"; "--goto"; "{line}"])
             eq_refl eq_refl eq_refl eq_refl eq_refl eq_refl).
Defined.

Lemma onError_silences_console_witness :
  existsb isConsoleLog
    (snd (sampleLaunch (sampleHost linux None None)
            (sampleRequest "/a/b.js" None true) initialState)) = false
  /\ existsb isConsoleLog
       (snd (onExit plain plain plain (sampleHost linux None None)
               (sampleRequest "/a/b.js" None true) "/a/b.js" (Some 2%Z)
               initialState)) = false
  /\ snd (onErrorEvent plain plain plain (sampleHost linux None None)
            (sampleRequest "/a/b.js" None true) "/a/b.js" "spawn code ENOENT"
            initialState)
     = [OnErrorCall "/a/b.js" "spawn code ENOENT"].
Proof.
  exact (onError_silences_console sampleProcessMap sampleEditorsMap
           plain plain plain (sampleHost linux None None)
           (sampleRequest "/a/b.js" None true) initialState "/a/b.js"
           "spawn code ENOENT" (Some 2%Z) eq_refl).
Defined.

Lemma launchIDE_editor_path_no_kill_witness :
  existsb isKill
    (snd (sampleLaunch (sampleHost linux (Some "/usr/bin/vim") None)
            (sampleRequest "/a/b.js" None true)
            {| _childProcess := Some 0; created := 1 |}))
  = false.
Proof.
  exact (launchIDE_editor_path_no_kill sampleProcessMap sampleEditorsMap
           plain plain (sampleHost linux (Some "/usr/bin/vim") None)
           (sampleRequest "/a/b.js" None true)
           {| _childProcess := Some 0; created := 1 |}
           "/usr/bin/vim" [] eq_refl eq_refl).
Defined.

Lemma escapeCmdArgs_injective_witness :
  escapeCmdArgs "a&b" = "a^&b" /\ "a&b" = "a&b".
Proof.
  split; [reflexivity |].
  exact (escapeCmdArgs_injective "a&b" "a&b" eq_refl).
Defined.

Lemma printInstructions_lines_witness :
  exists message,
    nth_error
      (printInstructions plain plain plain (sampleHost linux None None)
         "/a/b.js" "(code 1)") 1
    = Some (ConsoleLog
              (plain ("The editor process exited with an error: " ++ message)))
    /\ endsWith message "." = true
    /\ (endsWith "(code 1)" "." = true -> message = "(code 1)")
    /\ (endsWith "(code 1)" "." = false -> message = "(code 1)" ++ ".").
Proof.
  exact (proj2 (proj2 (printInstructions_lines plain plain plain
                         (sampleHost linux None None) "/a/b.js" "(code 1)"))
           eq_refl).
Defined.
